(** * The MCP handshake probe (debug_mcp_init.py)

    A shallow embedding of the script: the values [json.loads] produces,
    the three functions [send_message], [read_response] and [main], and the
    child process they talk to.  The child is a script of outcomes, one per
    call the probe makes on the [Popen] handle; every such call is recorded
    in a trace, so that statements about what the probe sends, reads and
    prints are statements about that trace.

    The runs covered are those in which every call returns or raises an
    [Exception]: a [readline] that blocks for ever, and an interrupt from
    the keyboard, are not runs of this model.  [print], [time.sleep],
    [terminate] and [kill] are taken to return; [process.stderr.read] may
    raise, as it does on bytes that are no text. *)

From Stdlib Require Import List String Ascii ZArith Bool Lia DecimalString.
From Stdlib Require Import SpecFloat.
Import ListNotations.

Open Scope string_scope.
Open Scope list_scope.

(** ** Python values *)

(** The values [json.loads] returns.  [None] is JSON's [null]; a [dict]
    keeps its items in insertion order, and a key is looked up at its first
    item.  A [str] is a sequence of code points below 256. *)
#[warnings="-register-all"]
Inductive pyval : Type :=
| PNone
| PBool (b : bool)
| PInt (n : Z)
| PFloat (x : spec_float)
| PStr (s : string)
| PList (items : list pyval)
| PDict (items : list (string * pyval)).

(** Instances of [Exception]: those the script's own expressions raise, and
    those the operating system hands to it. *)
Inductive exn : Type :=
| AttributeError (type_name attr : string)
| TypeError (msg : string)
| KeyError (key : string)
| TimeoutExpired (timeout : nat)
| JSONDecodeError (msg : string)
| UnicodeDecodeError
| FileNotFoundError (path : string)
| BrokenPipeError
| OSError (msg : string).

Definition type_name (v : pyval) : string :=
  match v with
  | PNone => "NoneType"
  | PBool _ => "bool"
  | PInt _ => "int"
  | PFloat _ => "float"
  | PStr _ => "str"
  | PList _ => "list"
  | PDict _ => "dict"
  end.

Definition str_truthy (s : string) : bool :=
  match s with EmptyString => false | String _ _ => true end.

(** [bool(v)]: what an [if] or an [and] tests. *)
Definition truthy (v : pyval) : bool :=
  match v with
  | PNone => false
  | PBool b => b
  | PInt n => negb (Z.eqb n 0)
  | PFloat (S754_zero _) => false
  | PFloat _ => true
  | PStr s => str_truthy s
  | PList [] => false
  | PList (_ :: _) => true
  | PDict [] => false
  | PDict (_ :: _) => true
  end.

Fixpoint dict_get (d : list (string * pyval)) (k : string) : option pyval :=
  match d with
  | [] => None
  | (k', v) :: d' => if String.eqb k' k then Some v else dict_get d' k
  end.

(** The number of keys of a [dict]. *)
Definition dict_len (d : list (string * pyval)) : nat :=
  List.length (nodup string_dec (map fst d)).

(** ** Whitespace *)

(** [str.isspace] on the code points below 256. *)
Definition isspace (c : ascii) : bool :=
  let n := nat_of_ascii c in
  (((9 <=? n) && (n <=? 13)) || ((28 <=? n) && (n <=? 32))
   || (n =? 133) || (n =? 160))%nat.

Fixpoint lstrip (s : string) : string :=
  match s with
  | EmptyString => EmptyString
  | String c s' => if isspace c then lstrip s' else s
  end.

Definition string_rev (s : string) : string :=
  string_of_list_ascii (rev (list_ascii_of_string s)).

(** [s.strip()] *)
Definition strip (s : string) : string :=
  string_rev (lstrip (string_rev (lstrip s))).

(** ** The child process and the trace of a run *)

(** What the probe prints on its own [sys.stderr]; one constructor per
    [print] of the script. *)
Inductive log_line : Type :=
| Starting (cmd : list string)
| Sending (message : pyval)
| Received (response : pyval)
| ReadError (e : exn)
| InitOk
| InitFailed (response : pyval)
| NotifSent
| ToolsOk
| Found (n : nat)
| ToolsFailed (response : pyval)
| RunError (e : exn)
| Stderr (output : string).

(** The calls the probe makes, in the order it makes them.  A call is
    recorded when it is made, whether or not it then raises. *)
Inductive event : Type :=
| Print (l : log_line)
| Spawn (cmd : list string)
| Sleep (seconds : nat)
| StdinWrite (message : pyval)
| StdinFlush
| StdoutReadline
| Terminate
| Wait (timeout : nat)
| Kill
| StderrRead.

(** The child process, as the probe meets it: how it answers each call.
    [stdin_outcomes] answers the successive [write] and [flush] calls on
    [process.stdin], [stdout_lines] the successive [readline] calls on
    [process.stdout]; a script that has run out answers that the write went
    through, and that the output is at end-of-stream.  [stderr_drain]
    answers [process.stderr.read]. *)
Record child : Type := mkChild {
  popen_outcome : option exn;
  stdin_outcomes : list (option exn);
  stdout_lines : list (exn + string);
  wait_expires : bool;
  stderr_drain : exn + string
}.

(** What the drain of the child's stderr brings: nothing when it raises. *)
Definition stderr_content (c : child) : string :=
  match stderr_drain c with
  | inr s => s
  | inl _ => EmptyString
  end.

(** The world of a run: the child, and the trace so far. *)
Record world : Type := mkWorld {
  peer : child;
  trace : list event
}.

Definition record (e : event) (w : world) : world :=
  mkWorld (peer w) (trace w ++ [e]).

Definition set_stdin (l : list (option exn)) (w : world) : world :=
  let c := peer w in
  mkWorld (mkChild (popen_outcome c) l (stdout_lines c)
                   (wait_expires c) (stderr_drain c))
          (trace w).

Definition set_stdout (l : list (exn + string)) (w : world) : world :=
  let c := peer w in
  mkWorld (mkChild (popen_outcome c) (stdin_outcomes c) l
                   (wait_expires c) (stderr_drain c))
          (trace w).

(** The handle [subprocess.Popen] returns. *)
Inductive process : Type := Process.

(** ** Computations that act on the world and may raise *)

Definition M (A : Type) : Type := world -> (exn + A) * world.

Definition ret {A} (a : A) : M A := fun w => (inr a, w).

Definition raise {A} (e : exn) : M A := fun w => (inl e, w).

Definition bind {A B} (m : M A) (k : A -> M B) : M B :=
  fun w =>
    match m w with
    | (inl e, w') => (inl e, w')
    | (inr a, w') => k a w'
    end.

Declare Scope probe_scope.
Delimit Scope probe_scope with probe.
Notation "x <- c1 ;; c2" := (bind c1 (fun x => c2))
  (at level 61, c1 at next level, right associativity) : probe_scope.
Notation "c1 ;; c2" := (bind c1 (fun _ => c2))
  (at level 61, right associativity) : probe_scope.
Open Scope probe_scope.

(** [try: body / except Exception as e: handler e] *)
Definition try_except {A} (body : M A) (handler : exn -> M A) : M A :=
  fun w =>
    match body w with
    | (inl e, w') => handler e w'
    | (inr a, w') => (inr a, w')
    end.

(** [try: body / except C: handler], for an exception class [C]. *)
Definition try_except_class {A} (C : exn -> bool) (body handler : M A) : M A :=
  fun w =>
    match body w with
    | (inl e, w') => if C e then handler w' else (inl e, w')
    | (inr a, w') => (inr a, w')
    end.

(** [try: body / finally: fin]: [fin] runs however [body] ends, and the
    outcome is [body]'s unless [fin] itself raises. *)
Definition try_finally {A} (body : M A) (fin : M unit) : M A :=
  fun w =>
    match body w with
    | (r, w') =>
        match fin w' with
        | (inl e, w'') => (inl e, w'')
        | (inr _, w'') => (r, w'')
        end
    end.

Definition emit (e : event) : M unit := fun w => (inr tt, record e w).

Definition print (l : log_line) : M unit := emit (Print l).

Definition sleep (seconds : nat) : M unit := emit (Sleep seconds).

(** [subprocess.Popen(cmd, ...)] *)
Definition Popen (cmd : list string) : M process :=
  fun w =>
    match popen_outcome (peer w) with
    | Some e => (inl e, record (Spawn cmd) w)
    | None => (inr Process, record (Spawn cmd) w)
    end.

(** One call on [process.stdin]. *)
Definition stdin_call (e : event) : M unit :=
  fun w =>
    match stdin_outcomes (peer w) with
    | [] => (inr tt, record e w)
    | Some err :: rest => (inl err, set_stdin rest (record e w))
    | None :: rest => (inr tt, set_stdin rest (record e w))
    end.

(** [process.stdin.write(json.dumps(message) + newline)] *)
Definition stdin_write (p : process) (message : pyval) : M unit :=
  stdin_call (StdinWrite message).

Definition stdin_flush (p : process) : M unit := stdin_call StdinFlush.

(** [process.stdout.readline()]: the empty string at end-of-stream. *)
Definition stdout_readline (p : process) : M string :=
  fun w =>
    match stdout_lines (peer w) with
    | [] => (inr EmptyString, record StdoutReadline w)
    | o :: rest => (o, set_stdout rest (record StdoutReadline w))
    end.

Definition terminate (p : process) : M unit := emit Terminate.

Definition kill (p : process) : M unit := emit Kill.

(** [process.wait(timeout=t)] *)
Definition wait (p : process) (t : nat) : M unit :=
  fun w =>
    if wait_expires (peer w) then (inl (TimeoutExpired t), record (Wait t) w)
    else (inr tt, record (Wait t) w).

(** [process.stderr.read()], line 114: what the child wrote to its stderr,
    or the fault of reading it as text. *)
Definition stderr_read (p : process) : M string :=
  fun w => (stderr_drain (peer w), record StderrRead w).

Definition is_TimeoutExpired (e : exn) : bool :=
  match e with TimeoutExpired _ => true | _ => false end.

(** ** Expressions of the script *)

(** [v.get(k, default)]: only a [dict] has the method. *)
Definition py_get (v : pyval) (k : string) (default : pyval) : M pyval :=
  match v with
  | PDict d =>
      match dict_get d k with
      | Some x => ret x
      | None => ret default
      end
  | _ => raise (AttributeError (type_name v) "get")
  end.

(** [v[k]] for a string [k]. *)
Definition py_getitem (v : pyval) (k : string) : M pyval :=
  match v with
  | PDict d =>
      match dict_get d k with
      | Some x => ret x
      | None => raise (KeyError k)
      end
  | _ => raise (TypeError (type_name v))
  end.

(** [len(v)] *)
Definition py_len (v : pyval) : M nat :=
  match v with
  | PStr s => ret (String.length s)
  | PList l => ret (List.length l)
  | PDict d => ret (dict_len d)
  | _ => raise (TypeError (type_name v))
  end.

(** [v and v.get(k)], as the condition of an [if]: the method is looked up
    only when [v] is truthy. *)
Definition and_get (v : pyval) (k : string) : M bool :=
  if truthy v then (r <- py_get v k PNone ;; ret (truthy r)) else ret false.

(** ** The script *)

Section Probe.

(** [json.loads] belongs to Python's library, not to the script: the
    functions below take it as it comes, [inl] when it raises. *)
Variable json_loads : string -> exn + pyval.

Definition loads (s : string) : M pyval := fun w => (json_loads s, w).

(** [send_message(process, message)], lines 7-12. *)
Definition send_message (p : process) (message : pyval) : M unit :=
  print (Sending message) ;;
  stdin_write p message ;;
  stdin_flush p.

(** [read_response(process)], lines 14-25. *)
Definition read_response (p : process) : M pyval :=
  try_except
    (line <- stdout_readline p ;;
     if str_truthy line then
       response <- loads (strip line) ;;
       print (Received response) ;;
       ret response
     else ret PNone)
    (fun e => print (ReadError e) ;; ret PNone).

Definition cmd : list string :=
  ["D:\MCP\MCP-workspace-bootcampToProd\filesystem_mcp_server\venv\Scripts\python";
   "../filesystem_mcp_server/src/main.py"].

Definition init_request : pyval :=
  PDict
    [("jsonrpc", PStr "2.0");
     ("id", PInt 1);
     ("method", PStr "initialize");
     ("params",
      PDict
        [("protocolVersion", PStr "2024-11-05");
         ("capabilities",
          PDict [("roots", PDict [("listChanged", PBool true)]);
                 ("sampling", PDict [])]);
         ("clientInfo",
          PDict [("name", PStr "debug-client");
                 ("version", PStr "1.0.0")])])].

Definition init_notification : pyval :=
  PDict
    [("jsonrpc", PStr "2.0");
     ("method", PStr "notifications/initialized");
     ("params", PDict [])].

Definition tools_request : pyval :=
  PDict
    [("jsonrpc", PStr "2.0");
     ("id", PInt 2);
     ("method", PStr "tools/list");
     ("params", PDict [])].

(** Lines 72-102 of [main]: what the [try] goes on to do once the
    initialize response is accepted. *)
Definition list_tools (p : process) : M unit :=
  send_message p init_notification ;;
  print NotifSent ;;
  sleep 1 ;;
  send_message p tools_request ;;
  tools_response <- read_response p ;;
  ok <- and_get tools_response "result" ;;
  if ok : bool then
    print ToolsOk ;;
    result <- py_getitem tools_response "result" ;;
    tools <- py_get result "tools" (PList []) ;;
    n <- py_len tools ;;
    print (Found n)
  else
    print (ToolsFailed tools_response).

(** The body of [main]'s [try], lines 44-102.  The [return] of line 70
    ends it when the initialize response is turned down; otherwise it goes
    on with [list_tools]. *)
Definition handshake (p : process) : M unit :=
  send_message p init_request ;;
  init_response <- read_response p ;;
  ok <- and_get init_response "result" ;;
  if ok : bool then
    print InitOk ;;
    list_tools p
  else
    print (InitFailed init_response).

(** The body of [main]'s [finally], lines 107-116. *)
Definition teardown (p : process) : M unit :=
  terminate p ;;
  try_except_class is_TimeoutExpired (wait p 5) (kill p) ;;
  stderr_output <- stderr_read p ;;
  if str_truthy stderr_output then print (Stderr stderr_output) else ret tt.

(** [main()], lines 27-116. *)
Definition main : M unit :=
  print (Starting cmd) ;;
  p <- Popen cmd ;;
  sleep 2 ;;
  try_finally
    (try_except (handshake p) (fun e => print (RunError e)))
    (teardown p).

End Probe.

(** ** Rendering the log *)

Section Rendering.

(** [json.dumps], [str] of a value and [str] of an exception, as the
    f-strings of the script call them. *)
Variable json_dumps : pyval -> string.
Variable str : pyval -> string.
Variable str_exn : exn -> string.

Definition decimal (n : nat) : string := NilEmpty.string_of_uint (Nat.to_uint n).

(** The text of each [print]. *)
Definition render (l : log_line) : string :=
  match l with
  | Starting c => "Starting process: " ++ String.concat " " c
  | Sending m => "SENDING: " ++ json_dumps m
  | Received r => "RECEIVED: " ++ json_dumps r
  | ReadError e => "ERROR reading response: " ++ str_exn e
  | InitOk => "INITIALIZE successful!"
  | InitFailed r => "INITIALIZE failed: " ++ str r
  | NotifSent => "INITIALIZED notification sent!"
  | ToolsOk => "TOOLS/LIST successful!"
  | Found n => "Found " ++ decimal n ++ " tools"
  | ToolsFailed r => "TOOLS/LIST failed: " ++ str r
  | RunError e => "Error during test: " ++ str_exn e
  | Stderr o => "STDERR: " ++ o
  end%string.

End Rendering.

(** ** Reading a trace *)

(** The lines printed, in order. *)
Fixpoint printed (t : list event) : list log_line :=
  match t with
  | [] => []
  | Print l :: t' => l :: printed t'
  | _ :: t' => printed t'
  end.

(** The messages written to the child, in order. *)
Fixpoint written (t : list event) : list pyval :=
  match t with
  | [] => []
  | StdinWrite m :: t' => m :: written t'
  | _ :: t' => written t'
  end.

Definition is_readline (e : event) : bool :=
  match e with StdoutReadline => true | _ => false end.

Definition is_terminate (e : event) : bool :=
  match e with Terminate => true | _ => false end.

Definition is_wait (e : event) : bool :=
  match e with Wait _ => true | _ => false end.

Definition is_kill (e : event) : bool :=
  match e with Kill => true | _ => false end.

Definition is_stderr_read (e : event) : bool :=
  match e with StderrRead => true | _ => false end.

Definition is_stderr_report (e : event) : bool :=
  match e with Print (Stderr _) => true | _ => false end.

(** The calls that make up the teardown. *)
Definition is_teardown (e : event) : bool :=
  is_terminate e || is_wait e || is_kill e || is_stderr_read e.

Definition count (f : event -> bool) (t : list event) : nat :=
  List.length (filter f t).

(** The probe reports [l]: it prints that line at some point of the run. *)
Definition reports (l : log_line) (t : list event) : Prop := In (Print l) t.

(** What follows the first event that satisfies [f]. *)
Fixpoint drop_until (f : event -> bool) (t : list event) : list event :=
  match t with
  | [] => []
  | e :: t' => if f e then t' else drop_until f t'
  end.

(** What precedes the first event that satisfies [f]: all of [t] when
    there is none. *)
Fixpoint take_until (f : event -> bool) (t : list event) : list event :=
  match t with
  | [] => []
  | e :: t' => if f e then [] else e :: take_until f t'
  end.

(** The events after the first one that satisfies [f] and before the next
    one that satisfies [g]. *)
Definition events_between (f g : event -> bool) (t : list event) : list event :=
  take_until g (drop_until f t).

(** The value of the [id] field of a message, when it has one. *)
Definition message_id (m : pyval) : option pyval :=
  match m with
  | PDict d => dict_get d "id"
  | _ => None
  end.

(** The [params] field of a message, when it has one. *)
Definition params_of (m : pyval) : option pyval :=
  match m with
  | PDict d => dict_get d "params"
  | _ => None
  end.

(** A request carries an [id]; a notification does not. *)
Definition is_request (m : pyval) : bool :=
  match message_id m with Some _ => true | None => false end.

Definition is_notification (m : pyval) : bool := negb (is_request m).

(** The write of a message whose [method] is [name]. *)
Definition writes_method (name : string) (e : event) : bool :=
  match e with
  | StdinWrite (PDict d) =>
      match dict_get d "method" with
      | Some (PStr s) => String.eqb s name
      | _ => false
      end
  | _ => false
  end.

(** The [result] field of a response, when it is an object that has one. *)
Definition result_of (v : pyval) : option pyval :=
  match v with
  | PDict d => dict_get d "result"
  | _ => None
  end.

Definition is_dict (v : pyval) : bool :=
  match v with PDict _ => true | _ => false end.

(** The response is there, and has a [result] field. *)
Definition present_with_result (v : pyval) : Prop :=
  v <> PNone /\ exists r, result_of v = Some r.

(** The response is an object whose [result] field is truthy. *)
Definition has_truthy_result (v : pyval) : Prop :=
  exists r, result_of v = Some r /\ truthy r = true.

(** The events of a run up to the [try] of [main]. *)
Definition launch_events : list event :=
  [Print (Starting cmd); Spawn cmd; Sleep 2].

(** The events of sending [m] when the child accepts it. *)
Definition send_events (m : pyval) : list event :=
  [Print (Sending m); StdinWrite m; StdinFlush].

(** The events of the teardown of the child [c]. *)
Definition teardown_events (c : child) : list event :=
  [Terminate; Wait 5]
  ++ (if wait_expires c then [Kill] else [])
  ++ [StderrRead]
  ++ (if str_truthy (stderr_content c)
      then [Print (Stderr (stderr_content c))] else []).

(** How the teardown of the child [c] ends: with the fault of the drain,
    when the drain raises. *)
Definition teardown_outcome (c : child) : exn + unit :=
  match stderr_drain c with
  | inl e => inl e
  | inr _ => inr tt
  end.

(** How [try: ... finally: ...] ends, from how its two blocks ended. *)
Definition finally_outcome {A} (body : exn + A) (fin : exn + unit) : exn + A :=
  match fin with
  | inl e => inl e
  | inr _ => body
  end.

Definition no_fault (o : option exn) : bool :=
  match o with None => true | Some _ => false end.

(** The child takes the first [n] calls on its input without a fault. *)
Definition stdin_accepts (n : nat) (c : child) : bool :=
  forallb no_fault (firstn n (stdin_outcomes c)).

(** The child starts, and takes [n] calls on its input. *)
Definition serves (n : nat) (c : child) : Prop :=
  popen_outcome c = None /\ stdin_accepts n c = true.

(** The child as it is once [k] lines of its output have been asked for. *)
Definition after_reads (k : nat) (c : child) : child :=
  mkChild (popen_outcome c) (stdin_outcomes c) (skipn k (stdout_lines c))
          (wait_expires c) (stderr_drain c).

(** What the next [readline] answers. *)
Definition next_line (w : world) : exn + string :=
  hd (inr EmptyString) (stdout_lines (peer w)).

(** The outcome and the trace of a whole run against the child [c]. *)
Definition run (json_loads : string -> exn + pyval) (c : child)
  : (exn + unit) * list event :=
  let (r, w) := main json_loads (mkWorld c []) in (r, trace w).

(** What the [k]-th call of [read_response] returns, counting from 0:
    each call asks the child for one line. *)
Definition response (json_loads : string -> exn + pyval) (k : nat) (c : child)
  : pyval :=
  match fst (read_response json_loads Process (mkWorld (after_reads k c) [])) with
  | inr v => v
  | inl _ => PNone
  end.

(** What the [except] of [main] adds to the trace. *)
Definition handler_events (r : exn + unit) : list event :=
  match r with inl e => [Print (RunError e)] | inr _ => [] end.

(** The events the body of the [try] can produce. *)
Definition handshake_event (e : event) : bool :=
  negb (is_teardown e) && negb (is_stderr_report e).

Definition is_init_report (e : event) : bool :=
  match e with
  | Print InitOk => true
  | Print (InitFailed _) => true
  | _ => false
  end.

(** The events [list_tools] can produce. *)
Definition tools_event (e : event) : bool :=
  handshake_event e && negb (is_init_report e).

(** [m] only appends to the trace, events that satisfy [P], and leaves
    alone how the child starts and how it exits. *)
Definition emits (P : event -> bool) {A} (m : M A) : Prop :=
  forall w, exists t,
    trace (snd (m w)) = trace w ++ t /\ forallb P t = true /\
    popen_outcome (peer (snd (m w))) = popen_outcome (peer w) /\
    wait_expires (peer (snd (m w))) = wait_expires (peer w) /\
    stderr_drain (peer (snd (m w))) = stderr_drain (peer w).

(** ** The blocks and the steps of a run *)

(** Lines 97-102 of [main]: what is made of the tools/list response. *)
Definition report_tools (tools_response : pyval) : M unit :=
  ok <- and_get tools_response "result" ;;
  if ok : bool then
    print ToolsOk ;;
    result <- py_getitem tools_response "result" ;;
    tools <- py_get result "tools" (PList []) ;;
    n <- py_len tools ;;
    print (Found n)
  else
    print (ToolsFailed tools_response).

(** The world once the child [c] has answered [calls] calls on its input
    and [reads] calls of [readline], with [t] for the trace. *)
Definition at_step (c : child) (calls reads : nat) (t : list event) : world :=
  mkWorld (mkChild (popen_outcome c) (skipn calls (stdin_outcomes c))
                   (skipn reads (stdout_lines c))
                   (wait_expires c) (stderr_drain c))
          t.

(** What the [k]-th call of [read_response] adds to the trace, counting
    from 0. *)
Definition read_events (json_loads : string -> exn + pyval) (k : nat) (c : child)
  : list event :=
  trace (snd (read_response json_loads Process (mkWorld (after_reads k c) []))).

(** The events [read_response] can produce. *)
Definition read_event (e : event) : bool :=
  match e with
  | StdoutReadline | Print (Received _) | Print (ReadError _) => true
  | _ => false
  end.

Definition is_run_error (e : event) : bool :=
  match e with Print (RunError _) => true | _ => false end.

Definition is_tools_report (e : event) : bool :=
  match e with
  | Print ToolsOk | Print (ToolsFailed _) | Print (Found _) => true
  | _ => false
  end.

(** The events of the body of the [try]: the [except] alone reports a run
    error. *)
Definition body_event (e : event) : bool :=
  handshake_event e && negb (is_run_error e).

(** The events of a run up to the tools/list response. *)
Definition prefix_event (e : event) : bool :=
  body_event e && negb (is_tools_report e).

(** The trace of a run that got as far as reading the tools/list
    response. *)
Definition tools_prefix (json_loads : string -> exn + pyval) (c : child)
  : list event :=
  launch_events ++ send_events init_request
  ++ [StdoutReadline; Print (Received (response json_loads 0 c)); Print InitOk]
  ++ send_events init_notification ++ [Print NotifSent; Sleep 1]
  ++ send_events tools_request ++ read_events json_loads 1 c.

(** Some line of the kind [k] was printed. *)
Definition prints (k : log_line -> bool) (t : list event) : bool :=
  existsb (fun e => match e with Print l => k l | _ => false end) t.

Definition is_InitOk (l : log_line) : bool :=
  match l with InitOk => true | _ => false end.

Definition is_InitFailed (l : log_line) : bool :=
  match l with InitFailed _ => true | _ => false end.

Definition is_NotifSent (l : log_line) : bool :=
  match l with NotifSent => true | _ => false end.

Definition is_ToolsOk (l : log_line) : bool :=
  match l with ToolsOk => true | _ => false end.

Definition is_ToolsFailed (l : log_line) : bool :=
  match l with ToolsFailed _ => true | _ => false end.

Definition is_Found (l : log_line) : bool :=
  match l with Found _ => true | _ => false end.

Definition is_RunError (l : log_line) : bool :=
  match l with RunError _ => true | _ => false end.

(** The order the status lines of a run keep. *)
Definition orderly (t : list event) : bool :=
  implb (prints is_NotifSent t) (prints is_InitOk t)
  && implb (prints is_ToolsOk t) (prints is_NotifSent t)
  && implb (prints is_ToolsFailed t) (prints is_NotifSent t)
  && implb (prints is_Found t) (prints is_ToolsOk t)
  && negb (prints is_InitOk t && prints is_InitFailed t)
  && negb (prints is_ToolsOk t && prints is_ToolsFailed t)
  && implb (prints is_InitFailed t)
       ((List.length (written t) =? 1)%nat && (count is_readline t =? 1)%nat
        && negb (prints is_RunError t)).

(** Every line of the kind [k] in [t] comes after a line of the kind
    [before]; [seen] tells whether such a line came before [t]. *)
Fixpoint follows (k before : log_line -> bool) (seen : bool) (t : list event)
  : bool :=
  match t with
  | [] => true
  | Print l :: t' =>
      implb (k l) seen && follows k before (seen || before l) t'
  | _ :: t' => follows k before seen t'
  end.

(** The order in which the status lines of a run come. *)
Definition sequenced (t : list event) : bool :=
  follows is_NotifSent is_InitOk false t
  && follows is_ToolsOk is_NotifSent false t
  && follows is_ToolsFailed is_NotifSent false t
  && follows is_Found is_ToolsOk false t.

(** ** A decoder for the closed examples *)

(** The closed examples below need some [json_loads] to run.  This one
    reads a fragment of JSON the way [json.loads] does: objects, arrays,
    strings without escapes, integers, [true], [false] and [null], with
    blanks between tokens; a key given twice keeps its last value.  Text
    outside the fragment (a fraction, an exponent, an escape, [NaN]) is
    answered with a [JSONDecodeError], which is not always what Python
    does; the examples stay inside the fragment. *)
Module Sample.

Definition dquote : ascii := "034"%char.

Definition newline : string := String "010"%char EmptyString.

(** [q s] is [s] between double quotes. *)
Definition q (s : string) : string :=
  (String dquote s ++ String dquote EmptyString)%string.

Definition is_blank (c : ascii) : bool :=
  let n := nat_of_ascii c in ((n =? 32) || (n =? 9) || (n =? 10) || (n =? 13))%nat.

Definition is_digit (c : ascii) : bool :=
  let n := nat_of_ascii c in ((48 <=? n) && (n <=? 57))%nat.

Fixpoint skip_blanks (s : list ascii) : list ascii :=
  match s with
  | c :: s' => if is_blank c then skip_blanks s' else s
  | [] => []
  end.

(** [after p s] is what follows [p] at the head of [s]. *)
Fixpoint after (p : string) (s : list ascii) : option (list ascii) :=
  match p, s with
  | EmptyString, _ => Some s
  | String c p', c' :: s' => if Ascii.eqb c c' then after p' s' else None
  | String _ _, [] => None
  end.

Fixpoint scan_digits (s : list ascii) (acc : Z) : Z * list ascii :=
  match s with
  | c :: s' =>
      if is_digit c
      then scan_digits s' (10 * acc + (Z.of_nat (nat_of_ascii c) - 48))%Z
      else (acc, s)
  | [] => (acc, [])
  end.

(** An integer: no leading zero, and no fraction or exponent after it. *)
Definition scan_int (s : list ascii) : option (Z * list ascii) :=
  let (neg, s1) := match after "-" s with Some r => (true, r) | None => (false, s) end in
  match s1 with
  | c :: s2 =>
      if is_digit c then
        let (n, r) := if Ascii.eqb c "0"%char then (0%Z, s2) else scan_digits s1 0%Z in
        match r with
        | c' :: _ =>
            if Ascii.eqb c' "."%char || Ascii.eqb c' "e"%char || Ascii.eqb c' "E"%char
            then None
            else Some (if neg then (- n)%Z else n, r)
        | [] => Some (if neg then (- n)%Z else n, r)
        end
      else None
  | [] => None
  end.

(** The text of a string up to its closing quote. *)
Fixpoint scan_string (s : list ascii) : option (string * list ascii) :=
  match s with
  | [] => None
  | c :: s' =>
      if Ascii.eqb c dquote then Some (EmptyString, s')
      else if Ascii.eqb c "\"%char || (nat_of_ascii c <? 32)%nat then None
      else match scan_string s' with
           | Some (str, r) => Some (String c str, r)
           | None => None
           end
  end.

(** [d[k] = v] *)
Fixpoint dict_set (d : list (string * pyval)) (k : string) (v : pyval)
  : list (string * pyval) :=
  match d with
  | [] => [(k, v)]
  | (k', v') :: d' =>
      if String.eqb k' k then (k', v) :: d' else (k', v') :: dict_set d' k v
  end.

Definition dict_of (items : list (string * pyval)) : list (string * pyval) :=
  fold_left (fun d kv => dict_set d (fst kv) (snd kv)) items [].

Fixpoint parse_value (fuel : nat) (s : list ascii) : option (pyval * list ascii) :=
  match fuel with
  | O => None
  | S fuel' =>
      let s := skip_blanks s in
      match after "null" s, after "true" s, after "false" s with
      | Some r, _, _ => Some (PNone, r)
      | _, Some r, _ => Some (PBool true, r)
      | _, _, Some r => Some (PBool false, r)
      | None, None, None =>
          match after "[" s, after "{" s, after (String dquote EmptyString) s with
          | Some r, _, _ =>
              match after "]" (skip_blanks r) with
              | Some r' => Some (PList [], r')
              | None =>
                  match parse_elements fuel' r with
                  | Some (l, r') => Some (PList l, r')
                  | None => None
                  end
              end
          | _, Some r, _ =>
              match after "}" (skip_blanks r) with
              | Some r' => Some (PDict [], r')
              | None =>
                  match parse_members fuel' r with
                  | Some (l, r') => Some (PDict (dict_of l), r')
                  | None => None
                  end
              end
          | _, _, Some r =>
              match scan_string r with
              | Some (str, r') => Some (PStr str, r')
              | None => None
              end
          | None, None, None =>
              match scan_int s with
              | Some (n, r) => Some (PInt n, r)
              | None => None
              end
          end
      end
  end
with parse_elements (fuel : nat) (s : list ascii) : option (list pyval * list ascii) :=
  match fuel with
  | O => None
  | S fuel' =>
      match parse_value fuel' s with
      | Some (v, r) =>
          let r := skip_blanks r in
          match after "," r, after "]" r with
          | Some r', _ =>
              match parse_elements fuel' r' with
              | Some (l, r'') => Some (v :: l, r'')
              | None => None
              end
          | None, Some r' => Some ([v], r')
          | None, None => None
          end
      | None => None
      end
  end
with parse_members (fuel : nat) (s : list ascii)
  : option (list (string * pyval) * list ascii) :=
  match fuel with
  | O => None
  | S fuel' =>
      match after (String dquote EmptyString) (skip_blanks s) with
      | Some r =>
          match scan_string r with
          | Some (k, r1) =>
              match after ":" (skip_blanks r1) with
              | Some r2 =>
                  match parse_value fuel' r2 with
                  | Some (v, r3) =>
                      let r3 := skip_blanks r3 in
                      match after "," r3, after "}" r3 with
                      | Some r4, _ =>
                          match parse_members fuel' r4 with
                          | Some (l, r5) => Some ((k, v) :: l, r5)
                          | None => None
                          end
                      | None, Some r4 => Some ([(k, v)], r4)
                      | None, None => None
                      end
                  | None => None
                  end
              | None => None
              end
          | None => None
          end
      | None => None
      end
  end.

Definition json_loads (s : string) : exn + pyval :=
  let cs := list_ascii_of_string s in
  match parse_value (2 * List.length cs + 2) cs with
  | Some (v, r) =>
      match skip_blanks r with
      | [] => inr v
      | _ :: _ => inl (JSONDecodeError "Extra data")
      end
  | None => inl (JSONDecodeError "Expecting value")
  end.

(** Lines a child may write, each ended by a newline. *)

Definition line_initialized : string :=
  ("{" ++ q "jsonrpc" ++ ": " ++ q "2.0" ++ ", " ++ q "id" ++ ": 1, "
   ++ q "result" ++ ": {" ++ q "protocolVersion" ++ ": " ++ q "2024-11-05"
   ++ "}}" ++ newline)%string.

Definition line_empty_result : string :=
  ("{" ++ q "jsonrpc" ++ ": " ++ q "2.0" ++ ", " ++ q "id" ++ ": 1, "
   ++ q "result" ++ ": {}}" ++ newline)%string.

Definition line_two_tools : string :=
  ("{" ++ q "jsonrpc" ++ ": " ++ q "2.0" ++ ", " ++ q "id" ++ ": 2, "
   ++ q "result" ++ ": {" ++ q "tools" ++ ": [{" ++ q "name" ++ ": " ++ q "a"
   ++ "}, {" ++ q "name" ++ ": " ++ q "b" ++ "}]}}" ++ newline)%string.

Definition line_no_tools : string :=
  ("{" ++ q "jsonrpc" ++ ": " ++ q "2.0" ++ ", " ++ q "id" ++ ": 2, "
   ++ q "result" ++ ": {" ++ q "nextCursor" ++ ": " ++ q "x" ++ "}}"
   ++ newline)%string.

Definition line_zero : string := ("0" ++ newline)%string.

Definition line_seven : string := ("7" ++ newline)%string.

Definition line_banner : string := ("Server starting" ++ newline)%string.

Definition initialized : pyval :=
  PDict [("jsonrpc", PStr "2.0"); ("id", PInt 1);
         ("result", PDict [("protocolVersion", PStr "2024-11-05")])].

Definition empty_result : pyval :=
  PDict [("jsonrpc", PStr "2.0"); ("id", PInt 1); ("result", PDict [])].

Definition two_tools : pyval :=
  PDict [("jsonrpc", PStr "2.0"); ("id", PInt 2);
         ("result",
          PDict [("tools", PList [PDict [("name", PStr "a")];
                                  PDict [("name", PStr "b")]])])].

Definition no_tools : pyval :=
  PDict [("jsonrpc", PStr "2.0"); ("id", PInt 2);
         ("result", PDict [("nextCursor", PStr "x")])].

(** Children. *)

(** A server that answers both requests, and exits when told to. *)
Definition child_two_tools : child :=
  mkChild None [] [inr line_initialized; inr line_two_tools] false (inr EmptyString).

(** The same server, slow to exit and with a warning on its stderr. *)
Definition child_noisy : child :=
  mkChild None [] [inr line_initialized; inr line_two_tools] true (inr "warning").

(** A server whose initialize result is the empty object. *)
Definition child_empty_result : child :=
  mkChild None [] [inr line_empty_result; inr line_two_tools] false (inr EmptyString).

(** A server whose tools/list result has no [tools] field. *)
Definition child_no_tools : child :=
  mkChild None [] [inr line_initialized; inr line_no_tools] false (inr EmptyString).

(** The executable is not there: [Popen] raises. *)
Definition child_missing : child :=
  mkChild (Some (FileNotFoundError "python")) [] [] false (inr EmptyString).

(** The child has exited by the time the probe writes to it: its output is
    at end-of-stream and the write meets a broken pipe. *)
Definition child_gone : child :=
  mkChild None [Some BrokenPipeError] [] false (inr "Traceback").

(** The child takes the request, then closes its output without a word. *)
Definition child_silent : child :=
  mkChild None [] [] false (inr EmptyString).

(** Children whose first line is a number. *)
Definition child_zero : child :=
  mkChild None [] [inr line_zero] false (inr EmptyString).

Definition child_seven : child :=
  mkChild None [] [inr line_seven] false (inr EmptyString).

(** A child that prints a banner on its stdout instead of a response. *)
Definition child_banner : child :=
  mkChild None [] [inr line_banner] false (inr EmptyString).

End Sample.

(** More children, for the facts on the rest of the script. *)
Module Cases.

Import Sample.

Definition line_error : string :=
  ("{" ++ q "jsonrpc" ++ ": " ++ q "2.0" ++ ", " ++ q "id" ++ ": 2, "
   ++ q "error" ++ ": {" ++ q "code" ++ ": -32601}}" ++ newline)%string.

Definition line_result_number : string :=
  ("{" ++ q "jsonrpc" ++ ": " ++ q "2.0" ++ ", " ++ q "id" ++ ": 2, "
   ++ q "result" ++ ": 5}" ++ newline)%string.

Definition line_tools_null : string :=
  ("{" ++ q "jsonrpc" ++ ": " ++ q "2.0" ++ ", " ++ q "id" ++ ": 2, "
   ++ q "result" ++ ": {" ++ q "tools" ++ ": null}}" ++ newline)%string.

Definition error_response : pyval :=
  PDict [("jsonrpc", PStr "2.0"); ("id", PInt 2);
         ("error", PDict [("code", PInt (-32601))])].

(** A server that answers tools/list with an error. *)
Definition child_tools_error : child :=
  mkChild None [] [inr line_initialized; inr line_error] false (inr EmptyString).

(** A server whose tools/list result is a number. *)
Definition child_result_number : child :=
  mkChild None [] [inr line_initialized; inr line_result_number] false
          (inr EmptyString).

(** A server whose tools/list result has [tools] set to [null]. *)
Definition child_tools_null : child :=
  mkChild None [] [inr line_initialized; inr line_tools_null] false (inr EmptyString).

(** A child whose output cannot be decoded as text. *)
Definition child_garbled : child :=
  mkChild None [] [inl UnicodeDecodeError] false (inr EmptyString).

(** A server that is initialized, then closes its input. *)
Definition child_hangup : child :=
  mkChild None [None; None; Some BrokenPipeError] [inr line_initialized] false
          (inr EmptyString).


End Cases.

(** * Facts *)

(** ** What a computation may add to the trace *)

Section Frame.
Variable P : event -> bool.

Lemma emits_ret A (a : A) : emits P (ret a).
Proof. intro w. exists []. cbn. rewrite app_nil_r. auto. Qed.

Lemma emits_raise A e : emits P (@raise A e).
Proof. intro w. exists []. cbn. rewrite app_nil_r. auto. Qed.

Lemma emits_bind A B (m : M A) (k : A -> M B) :
  emits P m -> (forall a, emits P (k a)) -> emits P (bind m k).
Proof.
  intros Hm Hk w. unfold bind.
  destruct (Hm w) as (t1 & Ht1 & HP1 & Hp1 & Hw1 & Hs1).
  destruct (m w) as [[e | a] w1]; cbn in *.
  - exists t1. auto.
  - destruct (Hk a w1) as (t2 & Ht2 & HP2 & Hp2 & Hw2 & Hs2).
    exists (t1 ++ t2). rewrite Ht2, Ht1, app_assoc, forallb_app, HP1, HP2.
    repeat split; congruence.
Qed.

Lemma emits_try_except A (body : M A) handler :
  emits P body -> (forall e, emits P (handler e)) -> emits P (try_except body handler).
Proof.
  intros Hm Hk w. unfold try_except.
  destruct (Hm w) as (t1 & Ht1 & HP1 & Hp1 & Hw1 & Hs1).
  destruct (body w) as [[e | a] w1]; cbn in *.
  - destruct (Hk e w1) as (t2 & Ht2 & HP2 & Hp2 & Hw2 & Hs2).
    exists (t1 ++ t2). rewrite Ht2, Ht1, app_assoc, forallb_app, HP1, HP2.
    repeat split; congruence.
  - exists t1. auto.
Qed.

Lemma emits_emit e : P e = true -> emits P (emit e).
Proof. intros He w. exists [e]. cbn. rewrite He. auto. Qed.

Lemma emits_stdin_call e : P e = true -> emits P (stdin_call e).
Proof.
  intros He w. exists [e]. unfold stdin_call.
  destruct (stdin_outcomes (peer w)) as [| [err |] rest]; cbn; rewrite He; auto.
Qed.

Lemma emits_readline p : P StdoutReadline = true -> emits P (stdout_readline p).
Proof.
  intros He w. exists [StdoutReadline]. unfold stdout_readline.
  destruct (stdout_lines (peer w)) as [| o rest]; cbn; rewrite He; auto.
Qed.

Lemma emits_loads jl s : emits P (loads jl s).
Proof. intro w. exists []. cbn. rewrite app_nil_r. auto. Qed.

Lemma emits_py_get v k d : emits P (py_get v k d).
Proof.
  destruct v; cbn; try apply emits_raise.
  destruct (dict_get items k); apply emits_ret.
Qed.

Lemma emits_py_getitem v k : emits P (py_getitem v k).
Proof.
  destruct v; cbn; try apply emits_raise.
  destruct (dict_get items k); [apply emits_ret | apply emits_raise].
Qed.

Lemma emits_py_len v : emits P (py_len v).
Proof. destruct v; cbn; apply emits_raise || apply emits_ret. Qed.

Lemma emits_and_get v k : emits P (and_get v k).
Proof.
  unfold and_get. destruct (truthy v); [| apply emits_ret].
  apply emits_bind; [apply emits_py_get | intro; apply emits_ret].
Qed.

End Frame.

Create HintDb probe.

#[local] Hint Resolve emits_ret emits_raise emits_loads emits_py_get emits_py_getitem
  emits_py_len emits_and_get : probe.

Section Facts.
Variable json_loads : string -> exn + pyval.

Lemma emits_send_message p m : emits tools_event (send_message p m).
Proof.
  unfold send_message, print, stdin_write, stdin_flush.
  repeat (apply emits_bind; [| intro]);
    (apply emits_emit || apply emits_stdin_call); reflexivity.
Qed.

Lemma emits_read_response p : emits tools_event (read_response json_loads p).
Proof.
  unfold read_response, print.
  apply emits_try_except.
  - apply emits_bind; [apply emits_readline; reflexivity | intro line].
    destruct (str_truthy line); auto with probe.
    apply emits_bind; [auto with probe | intro r].
    apply emits_bind; [apply emits_emit; reflexivity | intro; auto with probe].
  - intro e. apply emits_bind; [apply emits_emit; reflexivity | intro; auto with probe].
Qed.

Ltac emits_script :=
  repeat first
    [ apply emits_send_message
    | apply emits_read_response
    | apply emits_bind; [| intro]
    | apply emits_emit; reflexivity
    | match goal with |- emits _ (if ?b then _ else _) => destruct b end
    | solve [auto with probe] ].

Lemma emits_list_tools p : emits tools_event (list_tools json_loads p).
Proof. unfold list_tools, print, sleep. emits_script. Qed.

Lemma emits_weaken (P Q : event -> bool) A (m : M A) :
  (forall e, P e = true -> Q e = true) -> emits P m -> emits Q m.
Proof.
  intros HPQ Hm w. destruct (Hm w) as (t & Ht & HP & Hrest).
  exists t. repeat split; try tauto.
  rewrite forallb_forall in *. auto.
Qed.

Lemma tools_event_handshake e : tools_event e = true -> handshake_event e = true.
Proof. unfold tools_event. intro H. apply andb_prop in H. tauto. Qed.

Lemma emits_handshake p : emits handshake_event (handshake json_loads p).
Proof.
  unfold handshake, print.
  repeat first
    [ apply (emits_weaken _ _ _ _ tools_event_handshake);
      first [ apply emits_send_message | apply emits_read_response
            | apply emits_list_tools ]
    | apply emits_bind; [| intro]
    | apply emits_emit; reflexivity
    | match goal with |- emits _ (if ?b then _ else _) => destruct b end
    | solve [auto with probe] ].
Qed.

Lemma teardown_spec p w :
  teardown p w =
    (teardown_outcome (peer w),
     mkWorld (peer w) (trace w ++ teardown_events (peer w))).
Proof.
  destruct w as [[po si so we se] t].
  unfold teardown, teardown_events, teardown_outcome, stderr_content.
  cbv [bind terminate emit try_except_class wait kill stderr_read print ret record].
  cbn. destruct we; cbn; destruct se as [e | s]; cbn;
    try destruct (str_truthy s); cbn;
    rewrite <- ?app_assoc, ?app_nil_r; reflexivity.
Qed.

#[local] Arguments teardown : simpl never.
#[local] Arguments handshake : simpl never.

(** The teardown looks at the child's wait and at its stderr only. *)
Lemma teardown_same_child c c' :
  wait_expires c' = wait_expires c ->
  stderr_drain c' = stderr_drain c ->
  teardown_events c' = teardown_events c /\
  teardown_outcome c' = teardown_outcome c.
Proof.
  intros Hw Hs. unfold teardown_events, teardown_outcome, stderr_content.
  rewrite Hw, Hs. split; reflexivity.
Qed.

Lemma run_launch_fault c e :
  popen_outcome c = Some e ->
  run json_loads c = (inl e, [Print (Starting cmd); Spawn cmd]).
Proof.
  intro H. unfold run, main. cbv [bind print emit Popen record]. cbn.
  rewrite H. reflexivity.
Qed.

Lemma run_launched c :
  popen_outcome c = None ->
  run json_loads c =
    (teardown_outcome c,
     trace (snd (handshake json_loads Process (mkWorld c launch_events)))
     ++ handler_events (fst (handshake json_loads Process (mkWorld c launch_events)))
     ++ teardown_events c).
Proof.
  intro H. unfold run, main.
  cbv [bind print sleep emit Popen record try_finally try_except]. cbn.
  rewrite H. cbn. fold launch_events.
  destruct (emits_handshake Process (mkWorld c launch_events))
    as (t & _ & _ & _ & Hw & Hs).
  destruct (handshake json_loads Process (mkWorld c launch_events)) as [[e | []] [c1 t1]];
    cbn in *; rewrite teardown_spec; cbn -[teardown_events teardown_outcome];
    destruct (teardown_same_child c c1 Hw Hs) as [-> ->].
  - destruct (teardown_outcome c) as [e' | []]; cbn [trace];
      rewrite <- app_assoc; reflexivity.
  - destruct (teardown_outcome c) as [e' | []]; cbn [trace app];
      rewrite ?app_nil_r; reflexivity.
Qed.

End Facts.

(** ** Counting events *)

Lemma count_app f a b : count f (a ++ b) = count f a + count f b.
Proof. unfold count. rewrite filter_app, length_app. reflexivity. Qed.

Lemma count_none (f P : event -> bool) t :
  (forall e, P e = true -> f e = false) ->
  forallb P t = true -> count f t = 0.
Proof.
  intros HfP. induction t as [| e t IH]; cbn; intro H; [reflexivity |].
  apply andb_prop in H as [He Ht]. unfold count in *. cbn.
  rewrite (HfP e He). auto.
Qed.

Lemma handshake_event_not_teardown e :
  handshake_event e = true -> is_teardown e = false.
Proof. unfold handshake_event. destruct (is_teardown e); cbn; congruence. Qed.

Lemma handshake_event_not_report e :
  handshake_event e = true -> is_stderr_report e = false.
Proof.
  unfold handshake_event.
  destruct (is_teardown e), (is_stderr_report e); cbn; congruence.
Qed.

Lemma str_truthy_iff s : str_truthy s = true <-> s <> EmptyString.
Proof. destruct s; cbn; split; congruence. Qed.

Section Shape.
Variable json_loads : string -> exn + pyval.

(** A run that gets past the launch is the handshake, whatever became of
    it, followed by the teardown; it ends as the teardown ends. *)
Lemma run_shape c :
  popen_outcome c = None ->
  exists t0,
    run json_loads c = (teardown_outcome c, t0 ++ teardown_events c) /\
    forallb handshake_event t0 = true.
Proof.
  intro H. rewrite (run_launched json_loads c H).
  destruct (emits_handshake json_loads Process (mkWorld c launch_events))
    as (t & Ht & HP & _).
  destruct (handshake json_loads Process (mkWorld c launch_events)) as [r w].
  cbn [fst snd trace] in *.
  exists (launch_events ++ t ++ handler_events r). split.
  - rewrite Ht, <- !app_assoc. reflexivity.
  - rewrite !forallb_app, HP. destruct r as [e | u]; reflexivity.
Qed.

End Shape.

(** ** Where a line can have been printed *)

Lemma in_teardown_events l c :
  In (Print l) (teardown_events c) ->
  l = Stderr (stderr_content c) /\ str_truthy (stderr_content c) = true.
Proof.
  unfold teardown_events.
  destruct (wait_expires c), (str_truthy (stderr_content c)); cbn;
    intuition congruence.
Qed.

Lemma written_teardown_events c : written (teardown_events c) = [].
Proof.
  unfold teardown_events.
  destruct (wait_expires c), (str_truthy (stderr_content c)); reflexivity.
Qed.

Lemma no_readline_in_teardown g c :
  List.length (filter is_readline (take_until g (teardown_events c))) = 0.
Proof.
  unfold teardown_events.
  destruct (wait_expires c), (str_truthy (stderr_content c)); cbn;
    repeat match goal with
      | |- context [if ?b then _ else _] => destruct b; cbn
      end; reflexivity.
Qed.

Lemma tools_event_in t e :
  forallb tools_event t = true -> In e t -> tools_event e = true.
Proof. intros H. rewrite forallb_forall in H. auto. Qed.

Lemma result_of_truthy v r : result_of v = Some r -> truthy v = true.
Proof. destruct v as [| | | | | |[| kv d]]; cbn; congruence. Qed.

Lemma dict_get_truthy d k x : dict_get d k = Some x -> truthy (PDict d) = true.
Proof. destruct d; cbn; [discriminate | reflexivity]. Qed.

Lemma truthy_dict d : d <> [] -> truthy (PDict d) = true.
Proof. destruct d; cbn; [congruence | reflexivity]. Qed.

Lemma no_readline_teardown c :
  List.length (filter is_readline (teardown_events c)) = 0.
Proof.
  unfold teardown_events.
  destruct (wait_expires c), (str_truthy (stderr_content c)); reflexivity.
Qed.

Lemma list_tools_frame json_loads p w r w' :
  list_tools json_loads p w = (r, w') ->
  exists t,
    trace w' = trace w ++ t /\ forallb tools_event t = true /\
    wait_expires (peer w') = wait_expires (peer w) /\
    stderr_drain (peer w') = stderr_drain (peer w).
Proof.
  intro H.
  destruct (emits_list_tools json_loads p w) as (t & Ht & HP & _ & Hw & Hs).
  rewrite H in *. cbn in *. eauto.
Qed.

(** ** How a run ends *)

Lemma finally_ends {A} (fin : exn + unit) (r : exn + A) (w : world) :
  match fin with
  | inl e => (inl e, w)
  | inr _ => (r, w)
  end = (finally_outcome r fin, w).
Proof. destruct fin; reflexivity. Qed.

(** When the body of the [try] raised nothing that was not caught, the
    run ends as the [finally] block ends. *)
Lemma finally_outcome_unit (fin : exn + unit) :
  finally_outcome (inr tt) fin = fin.
Proof. destruct fin as [e | []]; reflexivity. Qed.

(** ** Running the script on a child given in part *)

(** [run_probe] unfolds the script down to the calls on the child, leaving
    [list_tools] and the teardown folded; [explore] then follows it,
    splitting on each answer of the child that the script looks at, and
    using what the hypotheses say of it. *)
Ltac run_probe :=
  cbv [run response main handshake send_message read_response and_get
       try_finally try_except try_except_class bind ret raise print sleep emit
       Popen stdin_write stdin_flush stdin_call stdout_readline terminate kill
       wait stderr_read loads py_get py_getitem py_len record set_stdin
       set_stdout after_reads next_line serves stdin_accepts] in *.

Ltac run_list_tools := run_probe; unfold list_tools in *; run_probe.

Ltac explore_step :=
  match goal with
  | |- context [teardown ?p ?w] => rewrite (teardown_spec p w)
  | H : context [teardown ?p ?w] |- _ => rewrite (teardown_spec p w) in H
  | |- context [match teardown_outcome ?c with _ => _ end] =>
      rewrite (finally_ends (teardown_outcome c))
  | H : context [match teardown_outcome ?c with _ => _ end] |- _ =>
      rewrite (finally_ends (teardown_outcome c)) in H
  | H : ?x = _ |- context [match ?x with _ => _ end] => rewrite H
  | H : ?x = _, H' : context [match ?x with _ => _ end] |- _ => rewrite H in H'
  | |- context [match ?x with _ => _ end] =>
      lazymatch x with
      | context [match _ with _ => _ end] => fail
      | _ => first [ is_var x; destruct x | destruct x eqn:? ]
      end
  | H : context [match ?x with _ => _ end] |- _ =>
      lazymatch x with
      | context [match _ with _ => _ end] => fail
      | _ => first [ is_var x; destruct x | destruct x eqn:? ]
      end
  end.

(** Name the outcome and the trace of the run, to follow it once. *)
Ltac name_run :=
  match goal with
  | |- context [run ?jl ?c] =>
      let r := fresh "outcome" in
      let t := fresh "events" in
      let E := fresh "Hrun" in
      destruct (run jl c) as [r t] eqn:E; cbn [fst snd] in *
  end.

Ltac tidy :=
  cbn in *; try discriminate; try contradiction;
  repeat match goal with
    | H : _ /\ _ |- _ => destruct H
    | H : inr _ = inr _ |- _ => injection H as H
    | H : inl _ = inl _ |- _ => injection H as H
    | H : Some _ = Some _ |- _ => injection H as H
    | H : (_, _) = (_, _) |- _ => injection H as ? ?
    | H : _ :: _ = _ :: _ |- _ => injection H as ? ?
    end;
  subst; try discriminate.

Ltac explore := repeat (tidy; explore_step); tidy.

(** What [list_tools] did, where it was left folded. *)
Ltac use_frames :=
  repeat match goal with
    | H : list_tools _ _ _ = _ |- _ =>
        let t := fresh "t" in
        let Ht := fresh "Ht" in
        apply list_tools_frame in H as (t & Ht & ? & ? & ?);
        cbn in Ht; rewrite Ht in *
    end.

(** Membership in a trace that is known up to the teardown. *)
Ltac in_trace :=
  cbn [In app] in *; rewrite ?in_app_iff in *; cbn [In app] in *;
  repeat match goal with
    | H : exists _, _ |- _ => destruct H
    | H : _ /\ _ |- _ => destruct H
    | H : _ \/ _ |- _ => destruct H
    | H : In (Print _) (teardown_events _) |- _ =>
        apply in_teardown_events in H
    | H : In ?e ?t, HP : forallb tools_event ?t = true |- _ =>
        apply (tools_event_in _ _ HP) in H
    end;
  try discriminate; try congruence; try contradiction.

Ltac in_list := solve [repeat first [left; reflexivity | right]].

Ltac close_leaf :=
  in_trace;
  try solve
    [ in_list
    | eauto 6
    | left; reflexivity
    | match goal with
      | H : result_of ?p = Some _, H' : truthy ?p = false |- _ =>
          apply result_of_truthy in H; congruence
      | H : dict_get ?d _ = Some _, H' : truthy (PDict ?d) = false |- _ =>
          apply dict_get_truthy in H; congruence
      end
    | right; split; [reflexivity | intros (? & ? & ?); congruence]
    | match goal with H : ~ _ |- _ => exfalso; apply H; eauto 6 end ].

#[local] Arguments strip : simpl never.
#[local] Arguments truthy : simpl never.
#[local] Arguments teardown : simpl never.
#[local] Arguments list_tools : simpl never.
#[local] Arguments teardown_events : simpl never.
#[local] Arguments teardown_outcome : simpl never.
#[local] Arguments finally_outcome : simpl never.

(** * The claims *)

Section Claims.
Variable json_loads : string -> exn + pyval.

(** ** The responses of a run *)

(** Each call of [read_response] asks the child for one line, returns
    what [response] says of the child as it then is, and raises nothing. *)
Lemma read_response_value p w :
  fst (read_response json_loads p w) = inr (response json_loads 0 (peer w)).
Proof.
  destruct w as [[po si so we se] t]. run_probe. explore; reflexivity.
Qed.

Lemma read_response_line p w :
  stdout_lines (peer (snd (read_response json_loads p w)))
  = tl (stdout_lines (peer w)).
Proof.
  destruct w as [[po si so we se] t]. run_probe. explore; reflexivity.
Qed.

Lemma response_next k c :
  response json_loads (S k) c = response json_loads k (after_reads 1 c).
Proof.
  unfold response, after_reads. cbn [stdout_lines popen_outcome stdin_outcomes
                                      wait_expires stderr_content].
  destruct (stdout_lines c) as [| o l]; cbn [skipn]; [| reflexivity].
  rewrite skipn_nil. reflexivity.
Qed.

(** ** The initialize response *)

(** C1, amended.  When the initialize request went out, the probe reports
    [INITIALIZE successful!] if and only if the response read is an object
    whose [result] field is truthy, and [INITIALIZE failed] if and only if
    the response is falsy (absent, or an empty or zero value) or an object
    with no truthy [result]; the failure line carries the response.  A
    [result] that is present but falsy, the empty object for one, is a
    failure. *)
Theorem initialize_report c :
  serves 2 c ->
  (reports InitOk (snd (run json_loads c))
   <-> has_truthy_result (response json_loads 0 c)) /\
  (reports (InitFailed (response json_loads 0 c)) (snd (run json_loads c))
   <-> truthy (response json_loads 0 c) = false
       \/ (is_dict (response json_loads 0 c) = true
           /\ ~ has_truthy_result (response json_loads 0 c))) /\
  (forall x, reports (InitFailed x) (snd (run json_loads c)) ->
             x = response json_loads 0 c).
Proof.
  intro H. destruct c as [po si so we se].
  unfold has_truthy_result, reports. run_probe.
  explore; use_frames; repeat split; intros; close_leaf.
Qed.

(** ** The tools/list response *)

(** C3.  When all three messages went out and the initialize response was
    accepted, a tools/list response whose [result] is an object with a
    [tools] list of N items makes the probe report
    [TOOLS/LIST successful!] and [Found N tools], for every N, and no
    other count. *)
Theorem tools_counted c r ts :
  serves 6 c ->
  has_truthy_result (response json_loads 0 c) ->
  result_of (response json_loads 1 c) = Some (PDict r) ->
  dict_get r "tools" = Some (PList ts) ->
  reports ToolsOk (snd (run json_loads c)) /\
  reports (Found (List.length ts)) (snd (run json_loads c)) /\
  (forall n, reports (Found n) (snd (run json_loads c)) -> n = List.length ts) /\
  (forall x, ~ reports (ToolsFailed x) (snd (run json_loads c))).
Proof.
  intros H H1 H2 H3. pose proof (dict_get_truthy _ _ _ H3) as Hr.
  destruct c as [po si so we se].
  unfold has_truthy_result, reports, result_of in *. name_run. run_list_tools.
  explore; repeat split; intros; try intro; close_leaf.
Qed.

(** C8.  In the same situation, a tools/list response whose [result] is a
    non-empty object without a [tools] field is a success with no tools:
    the probe reports [TOOLS/LIST successful!] and [Found 0 tools], and no
    failure. *)
Theorem tools_default_empty c r :
  serves 6 c ->
  has_truthy_result (response json_loads 0 c) ->
  result_of (response json_loads 1 c) = Some (PDict r) ->
  r <> [] ->
  dict_get r "tools" = None ->
  reports ToolsOk (snd (run json_loads c)) /\
  reports (Found 0) (snd (run json_loads c)) /\
  (forall n, reports (Found n) (snd (run json_loads c)) -> n = 0) /\
  (forall x, ~ reports (ToolsFailed x) (snd (run json_loads c))) /\
  (forall dumps str str_exn,
      render dumps str str_exn (Found 0) = "Found 0 tools").
Proof.
  intros H H1 H2 Hr H3. apply truthy_dict in Hr.
  destruct c as [po si so we se].
  unfold has_truthy_result, reports, result_of in *. name_run. run_list_tools.
  explore; repeat split; intros; try intro; close_leaf.
Qed.

(** ** A response that is not an object *)

(** C9, amended.  A line that decodes to a value that is not an object is
    returned by [read_response] as it is, with no read error.  When the
    value is truthy (a number other than zero, a non-empty string or
    array, [true]) the lookup of its [get] raises; the fault is caught by
    the [except] of [main] and by nothing before it, logged as a run
    error, and the teardown follows.  When the value is falsy (zero, the
    empty string or array, [false], [null]) nothing is looked up and
    nothing is raised: the probe reports [INITIALIZE failed], and the
    teardown follows.  Either way the run ends as its teardown ends. *)
Theorem non_object_response c line rest v :
  serves 2 c ->
  stdout_lines c = inr line :: rest ->
  line <> EmptyString ->
  json_loads (strip line) = inr v ->
  is_dict v = false ->
  response json_loads 0 c = v /\
  run json_loads c =
    (teardown_outcome c,
     launch_events ++ send_events init_request
     ++ [StdoutReadline; Print (Received v);
         Print (if truthy v
                then RunError (AttributeError (type_name v) "get")
                else InitFailed v)]
     ++ teardown_events c).
Proof.
  intros H Hso Hne Hv Hd. apply str_truthy_iff in Hne.
  destruct c as [po si so we se]. cbn in Hso. subst so.
  run_probe. cbn in *. rewrite Hne, Hv.
  explore; rewrite ?finally_outcome_unit; split; reflexivity.
Qed.

(** ** A child that is gone *)

(** C5, amended.  When the child's output is closed before it wrote any
    response, the run sends the initialize request and no other message,
    and ends with the teardown; it raises only what the drain of the
    child's stderr raises, and nothing when that drain returns.  If the
    child took the request, the first read returns [None] and the probe
    reports [INITIALIZE failed].  If writing the request met a fault, as
    it does when the child has exited, nothing is read: the fault is
    caught by the [except] of [main] and reported as a run error, and
    [INITIALIZE failed] is not reported. *)
Theorem closed_output_run c :
  popen_outcome c = None ->
  stdout_lines c = [] ->
  run json_loads c =
    (teardown_outcome c,
     launch_events
     ++ match stdin_outcomes c with
        | Some e :: _ =>
            [Print (Sending init_request); StdinWrite init_request;
             Print (RunError e)]
        | None :: Some e :: _ =>
            send_events init_request ++ [Print (RunError e)]
        | _ =>
            send_events init_request
            ++ [StdoutReadline; Print (InitFailed PNone)]
        end
     ++ teardown_events c) /\
  written (snd (run json_loads c)) = [init_request] /\
  (stdin_accepts 2 c = true ->
   response json_loads 0 c = PNone /\
   count is_readline (snd (run json_loads c)) = 1 /\
   reports (InitFailed PNone) (snd (run json_loads c)) /\
   forall e, ~ reports (RunError e) (snd (run json_loads c))) /\
  (stdin_accepts 2 c = false ->
   count is_readline (snd (run json_loads c)) = 0 /\
   (exists e, reports (RunError e) (snd (run json_loads c))) /\
   forall x, ~ reports (InitFailed x) (snd (run json_loads c))).
Proof.
  intros Hp Hso. destruct c as [po si so we se]. cbn in Hp, Hso. subst.
  unfold reports, count. run_probe.
  explore; rewrite ?finally_outcome_unit, ?written_teardown_events;
    repeat split; intros; try intro; try discriminate;
    rewrite ?no_readline_teardown; try reflexivity;
    try solve [eexists; in_list]; close_leaf.
Qed.

(** ** The order of the messages *)

Lemma written_prefix c :
  exists n,
    written (snd (run json_loads c))
    = firstn n [init_request; init_notification; tools_request].
Proof.
  destruct c as [po si so we se]. name_run. run_list_tools.
  explore; cbn; rewrite ?written_teardown_events;
    first [ exists 0; reflexivity | exists 1; reflexivity
          | exists 2; reflexivity | exists 3; reflexivity ].
Qed.

(** C7.  The messages written in a run are the first few of: the
    initialize request, the initialized notification, the tools/list
    request.  So a run sends at most two requests, with the identifiers 1
    then 2, no identifier twice; and at most one notification, the
    initialized one, which has no identifier. *)
Theorem requests_numbered c :
  (exists n,
      written (snd (run json_loads c))
      = firstn n [init_request; init_notification; tools_request]) /\
  (exists k,
      map message_id (filter is_request (written (snd (run json_loads c))))
      = firstn k [Some (PInt 1); Some (PInt 2)]) /\
  NoDup (map message_id (filter is_request (written (snd (run json_loads c))))) /\
  List.length (filter is_request (written (snd (run json_loads c)))) <= 2 /\
  List.length (filter is_notification (written (snd (run json_loads c)))) <= 1 /\
  (forall m, In m (written (snd (run json_loads c))) ->
             is_notification m = true ->
             m = init_notification /\ message_id m = None).
Proof.
  destruct (written_prefix c) as [n Hn]. rewrite Hn.
  split; [exists n; reflexivity |].
  destruct n as [| [| [| n]]]; cbn; rewrite ?firstn_nil; cbn.
  - split; [exists 0; reflexivity |].
    repeat split; try lia; try constructor; intros m [].
  - split; [exists 1; reflexivity |].
    repeat split; try lia; intros;
      repeat (constructor; cbn; try tauto);
      intuition (subst; try discriminate; auto).
  - split; [exists 1; reflexivity |].
    repeat split; try lia; intros;
      repeat (constructor; cbn; try tauto);
      intuition (subst; try discriminate; auto).
  - split; [exists 2; reflexivity |].
    repeat split; try lia; intros;
      repeat (constructor; cbn; try tauto);
      intuition (subst; try discriminate; auto).
Qed.

(** C6.  In every run that reports the initialize response as successful,
    the run up to then is the launch, the initialize request and the read
    of its response, and what comes next is the send of the initialized
    notification, which has no [id] and empty [params]; and no line is
    read from the child between the write of the notification and the
    write of the tools/list request. *)
Theorem notification_follows_initialize c :
  reports InitOk (snd (run json_loads c)) ->
  (exists v rest,
      snd (run json_loads c)
      = launch_events ++ send_events init_request
        ++ [StdoutReadline; Print (Received v); Print InitOk;
            Print (Sending init_notification); StdinWrite init_notification]
        ++ rest) /\
  count is_readline
    (events_between (writes_method "notifications/initialized")
                    (writes_method "tools/list") (snd (run json_loads c))) = 0 /\
  message_id init_notification = None /\
  params_of init_notification = Some (PDict []).
Proof.
  intro H. destruct c as [po si so we se].
  unfold reports, count, events_between in *. name_run. run_list_tools.
  explore; cbn; in_trace;
    repeat split; rewrite ?no_readline_in_teardown; try reflexivity;
    try solve [do 2 eexists; reflexivity].
Qed.

(** ** Teardown *)

(** C2, amended.  In every run in which the launch succeeds, the teardown
    is invoked exactly once, whatever fault the handshake met at a send or
    a read: one terminate, one wait of 5, a kill exactly when that wait
    expired, one drain of the child's stderr, and none of these calls
    before them.  When the launch itself raises there is no child: the
    run is over after the launch, and the teardown is not invoked. *)
Theorem teardown_once_after_launch c :
  match popen_outcome c with
  | None =>
      (exists t0,
          snd (run json_loads c) = t0 ++ teardown_events c /\
          count is_teardown t0 = 0) /\
      count is_terminate (snd (run json_loads c)) = 1 /\
      count is_wait (snd (run json_loads c)) = 1 /\
      count is_kill (snd (run json_loads c)) = (if wait_expires c then 1 else 0) /\
      count is_stderr_read (snd (run json_loads c)) = 1
  | Some e =>
      snd (run json_loads c) = [Print (Starting cmd); Spawn cmd] /\
      count is_teardown (snd (run json_loads c)) = 0
  end.
Proof.
  destruct (popen_outcome c) as [e |] eqn:Hp.
  - rewrite (run_launch_fault json_loads c e Hp). split; reflexivity.
  - destruct (run_shape json_loads c Hp) as (t0 & -> & H0).
    assert (Hnone : forall f,
               (forall e, is_teardown e = false -> f e = false) ->
               count f t0 = 0).
    { intros f Hf. apply (count_none f handshake_event); [| exact H0].
      intros e He. apply Hf, handshake_event_not_teardown, He. }
    split.
    + exists t0. split; [reflexivity | apply Hnone; auto].
    + cbn [snd]. rewrite !count_app.
      rewrite !Hnone by (intros [] ; cbn; congruence).
      unfold teardown_events.
      destruct (wait_expires c), (str_truthy (stderr_content c)); repeat split.
Qed.

(** C10.  In a run that reaches the teardown, a [STDERR:] line is printed
    if and only if what was drained from the child's stderr is not empty;
    it is then printed once, and carries what was drained. *)
Theorem stderr_report_iff_output c :
  popen_outcome c = None ->
  ((exists o, In (Print (Stderr o)) (snd (run json_loads c)))
   <-> stderr_content c <> EmptyString) /\
  (forall o, In (Print (Stderr o)) (snd (run json_loads c)) ->
             o = stderr_content c) /\
  count is_stderr_report (snd (run json_loads c))
  = (if str_truthy (stderr_content c) then 1 else 0).
Proof.
  intro Hp. destruct (run_shape json_loads c Hp) as (t0 & -> & H0). cbn [snd].
  assert (Hin : forall o, In (Print (Stderr o)) (t0 ++ teardown_events c) ->
                          str_truthy (stderr_content c) = true /\
                          o = stderr_content c).
  { intros o Ho. apply in_app_or in Ho as [Ho | Ho].
    - rewrite forallb_forall in H0. apply H0 in Ho. discriminate Ho.
    - unfold teardown_events in Ho.
      destruct (wait_expires c), (str_truthy (stderr_content c));
        cbn in Ho; intuition congruence. }
  repeat split.
  - intros [o Ho]. apply str_truthy_iff, (Hin o Ho).
  - intro Hne. apply str_truthy_iff in Hne. exists (stderr_content c).
    apply in_or_app. right. unfold teardown_events. rewrite Hne.
    destruct (wait_expires c); cbn; auto 10.
  - intros o Ho. apply (Hin o Ho).
  - rewrite count_app.
    rewrite (count_none _ _ t0 handshake_event_not_report H0).
    unfold teardown_events.
    destruct (wait_expires c), (str_truthy (stderr_content c)); reflexivity.
Qed.

(** ** Reading a response *)

(** X3.  A line that [json.loads] decodes is returned as it was decoded,
    and echoed; no read error is logged.  A line that decodes to [null]
    is returned as [None], as an absent response is. *)
Lemma read_response_decoded p w line v :
  next_line w = inr line -> line <> EmptyString ->
  json_loads (strip line) = inr v ->
  exists w',
    read_response json_loads p w = (inr v, w') /\
    trace w' = trace w ++ [StdoutReadline; Print (Received v)].
Proof.
  intros Hline Hne Hv. apply str_truthy_iff in Hne.
  destruct w as [[po si so we se] t]. run_probe.
  destruct so as [| o rest]; cbn in *; subst.
  { injection Hline as <-. discriminate Hne. }
  rewrite Hne, Hv. cbn. eexists. split; [reflexivity |].
  cbn. rewrite <- app_assoc. reflexivity.
Qed.

(** C4.  At end-of-stream [read_response] returns [None], having logged
    nothing; when the line it read does not parse, the fault is caught
    inside [read_response], logged as a read error, and [None] is
    returned; and [read_response] raises in no world at all. *)
Theorem read_response_absent p w :
  (next_line w = inr EmptyString ->
   exists w',
     read_response json_loads p w = (inr PNone, w') /\
     trace w' = trace w ++ [StdoutReadline]) /\
  (forall line e,
      next_line w = inr line -> line <> EmptyString ->
      json_loads (strip line) = inl e ->
      exists w',
        read_response json_loads p w = (inr PNone, w') /\
        trace w' = trace w ++ [StdoutReadline; Print (ReadError e)]) /\
  (exists v w', read_response json_loads p w = (inr v, w')).
Proof.
  destruct w as [[po si so we se] t]. repeat split.
  - intro H. run_probe. destruct so as [| o rest]; cbn in *; subst; cbn;
      eexists; split; reflexivity.
  - intros line e Hline Hne He. apply str_truthy_iff in Hne. run_probe.
    destruct so as [| o rest]; cbn in *; subst.
    { injection Hline as <-. discriminate Hne. }
    rewrite Hne, He. cbn. eexists. split; [reflexivity |].
    cbn. rewrite <- app_assoc. reflexivity.
  - run_probe. explore; eauto.
Qed.

End Claims.

(** * The claims on sample children *)

(** The sample lines decode as intended. *)
Example sample_lines_decode :
  Sample.json_loads (strip Sample.line_initialized) = inr Sample.initialized /\
  Sample.json_loads (strip Sample.line_empty_result) = inr Sample.empty_result /\
  Sample.json_loads (strip Sample.line_two_tools) = inr Sample.two_tools /\
  Sample.json_loads (strip Sample.line_no_tools) = inr Sample.no_tools /\
  Sample.json_loads (strip Sample.line_zero) = inr (PInt 0) /\
  Sample.json_loads (strip Sample.line_seven) = inr (PInt 7) /\
  Sample.json_loads (strip Sample.line_banner)
  = inl (JSONDecodeError "Expecting value").
Proof. repeat (split; [vm_compute; reflexivity |]). vm_compute. reflexivity. Qed.

(** What the probe prints against a server that answers both requests. *)
Example log_two_tools :
  printed (snd (run Sample.json_loads Sample.child_two_tools))
  = [Starting cmd; Sending init_request; Received Sample.initialized; InitOk;
     Sending init_notification; NotifSent; Sending tools_request;
     Received Sample.two_tools; ToolsOk; Found 2].
Proof. vm_compute. reflexivity. Qed.

(** What it prints when the child has exited. *)
Example log_child_gone :
  printed (snd (run Sample.json_loads Sample.child_gone))
  = [Starting cmd; Sending init_request; RunError BrokenPipeError;
     Stderr "Traceback"].
Proof. vm_compute. reflexivity. Qed.

(** The responses that server gives to the two reads. *)
Example responses_two_tools :
  response Sample.json_loads 0 Sample.child_two_tools = Sample.initialized /\
  response Sample.json_loads 1 Sample.child_two_tools = Sample.two_tools /\
  response Sample.json_loads 2 Sample.child_two_tools = PNone.
Proof. repeat (split; [vm_compute; reflexivity |]). vm_compute. reflexivity. Qed.

Ltac not_reported := vm_compute; intuition discriminate.

(** C1 as it was stated fails on a response whose [result] is the empty
    object: the response is there and has a [result] field, and the probe
    reports [INITIALIZE failed], not [INITIALIZE successful!]. *)
Lemma empty_result_is_reported_failed :
  response Sample.json_loads 0 Sample.child_empty_result = Sample.empty_result /\
  present_with_result Sample.empty_result /\
  result_of Sample.empty_result = Some (PDict []) /\
  ~ reports InitOk (snd (run Sample.json_loads Sample.child_empty_result)) /\
  reports (InitFailed Sample.empty_result)
    (snd (run Sample.json_loads Sample.child_empty_result)).
Proof.
  split; [vm_compute; reflexivity |].
  split; [split; [vm_compute; discriminate
                 | exists (PDict []); vm_compute; reflexivity] |].
  split; [vm_compute; reflexivity |].
  split; [not_reported | vm_compute; in_list].
Qed.

(** A server that answers with a non-empty [result] is reported as
    initialized. *)
Lemma initialize_report_witness :
  serves 2 Sample.child_two_tools /\
  reports InitOk (snd (run Sample.json_loads Sample.child_two_tools)).
Proof.
  assert (H : serves 2 Sample.child_two_tools)
    by (split; vm_compute; reflexivity).
  split; [exact H |].
  apply (proj1 (initialize_report Sample.json_loads Sample.child_two_tools H)).
  exists (PDict [("protocolVersion", PStr "2024-11-05")]).
  split; vm_compute; reflexivity.
Defined.

(** C2 as it was stated fails when the launch raises: no teardown. *)
Lemma launch_fault_skips_teardown :
  popen_outcome Sample.child_missing = Some (FileNotFoundError "python") /\
  count is_terminate (snd (run Sample.json_loads Sample.child_missing)) <> 1 /\
  count is_teardown (snd (run Sample.json_loads Sample.child_missing)) = 0 /\
  fst (run Sample.json_loads Sample.child_missing)
  = inl (FileNotFoundError "python").
Proof.
  split; [vm_compute; reflexivity |].
  split; [vm_compute; congruence |].
  split; vm_compute; reflexivity.
Qed.

(** Two tools are counted as two. *)
Lemma tools_counted_witness :
  reports (Found 2) (snd (run Sample.json_loads Sample.child_two_tools)).
Proof.
  refine (proj1 (proj2
    (tools_counted Sample.json_loads Sample.child_two_tools
       [("tools", PList [PDict [("name", PStr "a")]; PDict [("name", PStr "b")]])]
       [PDict [("name", PStr "a")]; PDict [("name", PStr "b")]] _ _ _ _))).
  - split; vm_compute; reflexivity.
  - exists (PDict [("protocolVersion", PStr "2024-11-05")]).
    split; vm_compute; reflexivity.
  - vm_compute. reflexivity.
  - vm_compute. reflexivity.
Defined.

(** A [result] with a cursor and no [tools] counts as no tools. *)
Lemma tools_default_empty_witness :
  reports ToolsOk (snd (run Sample.json_loads Sample.child_no_tools)) /\
  reports (Found 0) (snd (run Sample.json_loads Sample.child_no_tools)).
Proof.
  assert (H1 : serves 6 Sample.child_no_tools)
    by (split; vm_compute; reflexivity).
  assert (H2 : has_truthy_result
                 (response Sample.json_loads 0 Sample.child_no_tools)).
  { exists (PDict [("protocolVersion", PStr "2024-11-05")]).
    split; vm_compute; reflexivity. }
  assert (H3 : result_of (response Sample.json_loads 1 Sample.child_no_tools)
               = Some (PDict [("nextCursor", PStr "x")]))
    by (vm_compute; reflexivity).
  assert (H4 : [("nextCursor", PStr "x")] <> []) by discriminate.
  assert (H5 : dict_get [("nextCursor", PStr "x")] "tools" = None)
    by (vm_compute; reflexivity).
  destruct (tools_default_empty Sample.json_loads _ _ H1 H2 H3 H4 H5)
    as (Ha & Hb & _).
  split; assumption.
Defined.

(** A closed output, and a banner that is not JSON, both read as [None]. *)
Lemma read_response_absent_witness :
  (exists w',
      read_response Sample.json_loads Process (mkWorld Sample.child_silent [])
      = (inr PNone, w') /\
      trace w' = [StdoutReadline]) /\
  (exists w',
      read_response Sample.json_loads Process (mkWorld Sample.child_banner [])
      = (inr PNone, w') /\
      trace w' = [StdoutReadline;
                  Print (ReadError (JSONDecodeError "Expecting value"))]).
Proof.
  split.
  - apply (proj1 (read_response_absent Sample.json_loads Process
                    (mkWorld Sample.child_silent []))).
    vm_compute. reflexivity.
  - apply (proj1 (proj2 (read_response_absent Sample.json_loads Process
                           (mkWorld Sample.child_banner [])))
             Sample.line_banner).
    + vm_compute. reflexivity.
    + vm_compute. discriminate.
    + vm_compute. reflexivity.
Defined.

(** C5 as it was stated fails on a child that has exited: its output is
    closed before any response, yet nothing is read and
    [INITIALIZE failed] is not reported, because the write of the request
    raises first. *)
Lemma exited_child_is_not_read :
  popen_outcome Sample.child_gone = None /\
  stdout_lines Sample.child_gone = [] /\
  count is_readline (snd (run Sample.json_loads Sample.child_gone)) = 0 /\
  ~ (exists x,
        reports (InitFailed x) (snd (run Sample.json_loads Sample.child_gone))) /\
  reports (RunError BrokenPipeError)
    (snd (run Sample.json_loads Sample.child_gone)).
Proof.
  split; [vm_compute; reflexivity |].
  split; [vm_compute; reflexivity |].
  split; [vm_compute; reflexivity |].
  split; [| vm_compute; in_list].
  intros [x H]. vm_compute in H. intuition discriminate.
Qed.

(** The two ways a closed output goes: the request not taken, and taken. *)
Lemma closed_output_run_witness :
  (written (snd (run Sample.json_loads Sample.child_gone)) = [init_request] /\
   exists e, reports (RunError e) (snd (run Sample.json_loads Sample.child_gone))) /\
  (written (snd (run Sample.json_loads Sample.child_silent)) = [init_request] /\
   reports (InitFailed PNone) (snd (run Sample.json_loads Sample.child_silent))).
Proof.
  assert (Hp : popen_outcome Sample.child_gone = None)
    by (vm_compute; reflexivity).
  assert (Ho : stdout_lines Sample.child_gone = [])
    by (vm_compute; reflexivity).
  assert (Hs : stdin_accepts 2 Sample.child_gone = false)
    by (vm_compute; reflexivity).
  assert (Hp' : popen_outcome Sample.child_silent = None)
    by (vm_compute; reflexivity).
  assert (Ho' : stdout_lines Sample.child_silent = [])
    by (vm_compute; reflexivity).
  assert (Hs' : stdin_accepts 2 Sample.child_silent = true)
    by (vm_compute; reflexivity).
  destruct (closed_output_run Sample.json_loads Sample.child_gone Hp Ho)
    as (_ & Hw & _ & Hfault).
  destruct (closed_output_run Sample.json_loads Sample.child_silent Hp' Ho')
    as (_ & Hw' & Hread & _).
  split; split.
  - exact Hw.
  - apply (Hfault Hs).
  - exact Hw'.
  - apply (Hread Hs').
Defined.

(** The notification follows the accepted response. *)
Lemma notification_follows_initialize_witness :
  exists v rest,
    snd (run Sample.json_loads Sample.child_two_tools)
    = launch_events ++ send_events init_request
      ++ [StdoutReadline; Print (Received v); Print InitOk;
          Print (Sending init_notification); StdinWrite init_notification]
      ++ rest.
Proof.
  assert (H : reports InitOk (snd (run Sample.json_loads Sample.child_two_tools)))
    by (vm_compute; in_list).
  apply (notification_follows_initialize Sample.json_loads
           Sample.child_two_tools H).
Defined.

(** C9 as it was stated fails on a line that decodes to zero: the value is
    not an object, yet nothing is raised; the probe reports
    [INITIALIZE failed] and no run error. *)
Lemma zero_response_raises_nothing :
  Sample.json_loads (strip Sample.line_zero) = inr (PInt 0) /\
  is_dict (PInt 0) = false /\
  response Sample.json_loads 0 Sample.child_zero = PInt 0 /\
  ~ (exists e,
        reports (RunError e) (snd (run Sample.json_loads Sample.child_zero))) /\
  reports (InitFailed (PInt 0)) (snd (run Sample.json_loads Sample.child_zero)).
Proof.
  split; [vm_compute; reflexivity |].
  split; [vm_compute; reflexivity |].
  split; [vm_compute; reflexivity |].
  split; [| vm_compute; in_list].
  intros [x H]. vm_compute in H. intuition discriminate.
Qed.

(** A first line that decodes to 7: the lookup of [get] raises, and the
    run ends with the run error and the teardown. *)
Lemma non_object_response_witness :
  run Sample.json_loads Sample.child_seven
  = (teardown_outcome Sample.child_seven,
     launch_events ++ send_events init_request
     ++ [StdoutReadline; Print (Received (PInt 7));
         Print (RunError (AttributeError "int" "get"))]
     ++ teardown_events Sample.child_seven).
Proof.
  assert (H1 : serves 2 Sample.child_seven)
    by (split; vm_compute; reflexivity).
  assert (H2 : stdout_lines Sample.child_seven = [inr Sample.line_seven])
    by (vm_compute; reflexivity).
  assert (H3 : Sample.line_seven <> EmptyString)
    by (vm_compute; discriminate).
  assert (H4 : Sample.json_loads (strip Sample.line_seven) = inr (PInt 7))
    by (vm_compute; reflexivity).
  assert (H5 : is_dict (PInt 7) = false) by (vm_compute; reflexivity).
  apply (non_object_response Sample.json_loads Sample.child_seven
           Sample.line_seven [] (PInt 7) H1 H2 H3 H4 H5).
Defined.

(** One [STDERR:] line for a child that wrote a warning, none for a child
    that wrote nothing. *)
Lemma stderr_report_witness :
  count is_stderr_report (snd (run Sample.json_loads Sample.child_noisy)) = 1 /\
  count is_stderr_report (snd (run Sample.json_loads Sample.child_two_tools)) = 0.
Proof.
  assert (H1 : popen_outcome Sample.child_noisy = None)
    by (vm_compute; reflexivity).
  assert (H2 : popen_outcome Sample.child_two_tools = None)
    by (vm_compute; reflexivity).
  split.
  - apply (stderr_report_iff_output Sample.json_loads Sample.child_noisy H1).
  - apply (stderr_report_iff_output Sample.json_loads Sample.child_two_tools H2).
Defined.

(** * More of the script *)

(** ** Steps of a run *)

Lemma skipn_S_tl A k (l : list A) : skipn (S k) l = tl (skipn k l).
Proof.
  revert l. induction k as [| k IH]; intros [| a l]; cbn; try reflexivity.
  rewrite <- IH. reflexivity.
Qed.

Lemma skipn_add A i j (l : list A) : skipn i (skipn j l) = skipn (j + i) l.
Proof.
  revert l. induction j as [| j IH]; intros l; cbn; [reflexivity |].
  destruct l; [apply skipn_nil | apply IH].
Qed.

Lemma accepts_at i c :
  stdin_accepts (i + 2) c = true ->
  forallb no_fault (firstn 2 (skipn i (stdin_outcomes c))) = true.
Proof.
  unfold stdin_accepts. generalize (stdin_outcomes c). clear c.
  induction i as [| i IH]; intros l H; [exact H |].
  destruct l as [| o l]; [reflexivity |].
  cbn in H. apply andb_prop in H as [_ H]. apply IH, H.
Qed.

Lemma stdin_accepts_le n m c :
  n <= m -> stdin_accepts m c = true -> stdin_accepts n c = true.
Proof.
  unfold stdin_accepts. generalize (stdin_outcomes c). clear c. revert m.
  induction n as [| n IH]; intros m l Hle H; [reflexivity |].
  destruct m as [| m]; [lia |]. destruct l as [| o l]; [reflexivity |].
  cbn in *. apply andb_prop in H as [Ho H]. rewrite Ho.
  apply (IH m); [lia | exact H].
Qed.

Lemma bind_ok A B (m : M A) (k : A -> M B) w a w' :
  m w = (inr a, w') -> bind m k w = k a w'.
Proof. unfold bind. intros ->. reflexivity. Qed.

Lemma bind_emit B e (k : unit -> M B) c i j t :
  bind (emit e) k (at_step c i j t) = k tt (at_step c i j (t ++ [e])).
Proof. reflexivity. Qed.

Lemma implb_true a b : implb a b = true -> a = true -> b = true.
Proof. destruct a, b; cbn; congruence. Qed.

Lemma prints_intro k l t : reports l t -> k l = true -> prints k t = true.
Proof.
  intros H Hk. apply existsb_exists. exists (Print l). split; assumption.
Qed.

Lemma prints_elim k t :
  prints k t = true -> exists l, reports l t /\ k l = true.
Proof.
  intro H. apply existsb_exists in H as (e & He & Hk).
  destruct e as [l | | | | | | | | |]; try discriminate.
  exists l. split; assumption.
Qed.

Lemma prints_only k l t :
  k l = true -> (forall l', k l' = true -> l' = l) ->
  prints k t = true -> reports l t.
Proof.
  intros Hk Hu Hp. apply prints_elim in Hp as (l' & Hl' & Hk').
  rewrite <- (Hu l' Hk'). exact Hl'.
Qed.

Lemma follows_split k b t1 l t2 :
  forall seen,
    follows k b seen (t1 ++ Print l :: t2) = true -> k l = true ->
    seen = true \/ prints b t1 = true.
Proof.
  induction t1 as [| e t1 IH]; intros seen H Hk.
  - cbn in H. rewrite Hk in H. destruct seen; [left; reflexivity | discriminate].
  - destruct e as [l' | | | | | | | | |]; cbn [app follows] in H;
      try (apply IH in H as [H | H]; [left; exact H | right; exact H | exact Hk]).
    apply andb_true_iff in H as [_ H]. apply IH in H as [H | H]; [| | exact Hk].
    + apply orb_true_iff in H as [H | H]; [left; exact H |].
      right. unfold prints. cbn. rewrite H. reflexivity.
    + right. unfold prints in *. cbn. rewrite H. apply orb_true_r.
Qed.

(** A line of the kind [k] in a trace that [follows] allows has a line of
    the kind [b] before it. *)
Lemma follows_before k b l0 t t1 l t2 :
  follows k b false t = true ->
  b l0 = true -> (forall l', b l' = true -> l' = l0) ->
  t = t1 ++ Print l :: t2 -> k l = true -> reports l0 t1.
Proof.
  intros H Hb Hu -> Hk.
  destruct (follows_split k b t1 l t2 false H Hk) as [H' | H'];
    [discriminate |].
  exact (prints_only b l0 t1 Hb Hu H').
Qed.

Lemma prefix_event_in t e :
  forallb prefix_event t = true -> In e t -> prefix_event e = true.
Proof. intros H. rewrite forallb_forall in H. auto. Qed.

Lemma body_event_not_run_error e :
  body_event e = true -> is_run_error e = false.
Proof.
  unfold body_event. destruct (is_run_error e); rewrite ?andb_false_r; congruence.
Qed.

Lemma body_event_not_teardown e : body_event e = true -> is_teardown e = false.
Proof.
  unfold body_event. intro H. apply andb_prop in H as [H _].
  apply handshake_event_not_teardown, H.
Qed.

Section Steps.
Variable json_loads : string -> exn + pyval.

(** [list_tools] is two sends, a read, and [report_tools]. *)
Lemma list_tools_blocks p :
  list_tools json_loads p =
  (send_message p init_notification ;;
   print NotifSent ;;
   sleep 1 ;;
   send_message p tools_request ;;
   tools_response <- read_response json_loads p ;;
   report_tools tools_response).
Proof. reflexivity. Qed.

Lemma send_message_at p m c i j t :
  stdin_accepts (i + 2) c = true ->
  send_message p m (at_step c i j t)
  = (inr tt, at_step c (i + 2) j (t ++ send_events m)).
Proof.
  intro H. apply accepts_at in H. unfold at_step.
  rewrite <- skipn_add. run_probe.
  destruct (skipn i (stdin_outcomes c)) as [| [e |] [| [e' |] rest]];
    cbn in *; try discriminate; rewrite <- ?app_assoc; reflexivity.
Qed.

Lemma read_response_at p c i j t :
  read_response json_loads p (at_step c i j t)
  = (inr (response json_loads j c),
     at_step c i (S j) (t ++ read_events json_loads j c)).
Proof.
  unfold at_step, read_events. rewrite skipn_S_tl. run_probe.
  destruct (skipn j (stdout_lines c)) as [| o rest]; explore;
    rewrite <- ?app_assoc; reflexivity.
Qed.

Lemma and_get_accepts v w :
  has_truthy_result v -> and_get v "result" w = (inr true, w).
Proof.
  intros (r & Hr & Ht). pose proof (result_of_truthy _ _ Hr) as Hv.
  unfold and_get. rewrite Hv. destruct v; try discriminate. cbn in *.
  unfold bind. cbn. rewrite Hr. cbn. rewrite Ht. reflexivity.
Qed.

Lemma read_events_accepted k c :
  response json_loads k c <> PNone ->
  read_events json_loads k c
  = [StdoutReadline; Print (Received (response json_loads k c))].
Proof.
  unfold read_events, response. run_probe.
  destruct (skipn k (stdout_lines c)) as [| o rest]; explore;
    intro H; try reflexivity; congruence.
Qed.

Lemma read_events_only k c :
  forallb read_event (read_events json_loads k c) = true.
Proof.
  unfold read_events. run_probe.
  destruct (skipn k (stdout_lines c)) as [| o rest]; explore; reflexivity.
Qed.

Lemma tools_prefix_events c :
  forallb prefix_event (tools_prefix json_loads c) = true.
Proof.
  unfold tools_prefix. rewrite !forallb_app. cbn.
  replace (forallb prefix_event (read_events json_loads 1 c)) with true;
    [reflexivity |].
  symmetry. apply forallb_forall. intros e He.
  pose proof (read_events_only 1 c) as H. rewrite forallb_forall in H.
  specialize (H e He).
  destruct e as [[] | | | | | | | | |]; try discriminate; reflexivity.
Qed.

(** With all six calls on its input taken and the initialize response
    accepted, the body of the [try] comes down to [report_tools] on the
    second response. *)
Lemma handshake_to_tools p c t :
  serves 6 c ->
  has_truthy_result (response json_loads 0 c) ->
  handshake json_loads p (at_step c 0 0 t)
  = report_tools (response json_loads 1 c)
      (at_step c 6 2
         (t ++ send_events init_request
          ++ [StdoutReadline; Print (Received (response json_loads 0 c));
              Print InitOk]
          ++ send_events init_notification ++ [Print NotifSent; Sleep 1]
          ++ send_events tools_request ++ read_events json_loads 1 c)).
Proof.
  intros [Hp Hs] Hr.
  assert (H2 : stdin_accepts (0 + 2) c = true)
    by (apply (stdin_accepts_le 2 6); [lia | exact Hs]).
  assert (H4 : stdin_accepts (2 + 2) c = true)
    by (apply (stdin_accepts_le 4 6); [lia | exact Hs]).
  assert (Hne : response json_loads 0 c <> PNone).
  { destruct Hr as (r & Hr & _). intro E. rewrite E in Hr. discriminate. }
  unfold handshake. rewrite list_tools_blocks. unfold print, sleep.
  rewrite (bind_ok _ _ _ _ _ _ _ (send_message_at p _ c 0 0 t H2)).
  rewrite (bind_ok _ _ _ _ _ _ _ (read_response_at p c _ _ _)).
  rewrite (bind_ok _ _ _ _ _ _ _ (and_get_accepts _ _ Hr)).
  rewrite bind_emit.
  rewrite (bind_ok _ _ _ _ _ _ _ (send_message_at p _ c 2 1 _ H4)).
  rewrite !bind_emit.
  rewrite (bind_ok _ _ _ _ _ _ _ (send_message_at p _ c 4 1 _ Hs)).
  rewrite (bind_ok _ _ _ _ _ _ _ (read_response_at p c _ _ _)).
  rewrite (read_events_accepted 0 c Hne).
  cbn [Nat.add]. rewrite <- !app_assoc. reflexivity.
Qed.

Lemma run_to_tools c r w :
  serves 6 c ->
  has_truthy_result (response json_loads 0 c) ->
  report_tools (response json_loads 1 c)
    (at_step c 6 2 (tools_prefix json_loads c)) = (r, w) ->
  run json_loads c =
    (teardown_outcome c, trace w ++ handler_events r ++ teardown_events c).
Proof.
  intros Hs Hr E. rewrite (run_launched json_loads c (proj1 Hs)).
  replace (mkWorld c launch_events) with (at_step c 0 0 launch_events)
    by (destruct c; reflexivity).
  rewrite (handshake_to_tools Process c launch_events Hs Hr).
  unfold tools_prefix in E. rewrite E. reflexivity.
Qed.

Lemma emits_body_handshake p : emits body_event (handshake json_loads p).
Proof.
  unfold handshake, list_tools, send_message, read_response, print, sleep,
    stdin_write, stdin_flush.
  repeat first
    [ apply emits_bind; [| intro]
    | apply emits_try_except; [| intro]
    | apply emits_emit; reflexivity
    | apply emits_stdin_call; reflexivity
    | apply emits_readline; reflexivity
    | match goal with |- emits _ (if ?b then _ else _) => destruct b end
    | solve [auto with probe] ].
Qed.

(** Every run keeps its status lines in order. *)
Lemma run_orderly c : orderly (snd (run json_loads c)) = true.
Proof.
  destruct c as [po si so we se]. name_run. run_list_tools.
  explore; unfold teardown_events, stderr_content;
    cbn [wait_expires stderr_drain];
    destruct we, se as [e' | s']; try destruct (str_truthy s'); reflexivity.
Qed.

(** In every run each status line comes after the line of the step
    before it. *)
Lemma run_sequenced c : sequenced (snd (run json_loads c)) = true.
Proof.
  destruct c as [po si so we se]. name_run. run_list_tools.
  explore; unfold teardown_events, stderr_content;
    cbn [wait_expires stderr_drain];
    destruct we, se as [e' | s']; try destruct (str_truthy s'); reflexivity.
Qed.

End Steps.

Ltac in_tools_trace :=
  cbn [In app] in *; rewrite ?in_app_iff in *; cbn [In app] in *;
  repeat match goal with
    | H : exists _, _ |- _ => destruct H
    | H : _ /\ _ |- _ => destruct H
    | H : _ \/ _ |- _ => destruct H
    | H : In (Print _) (teardown_events _) |- _ =>
        apply in_teardown_events in H
    | H : In ?e ?t, HP : forallb prefix_event ?t = true |- _ =>
        apply (prefix_event_in _ _ HP) in H
    end;
  try discriminate; try congruence; try contradiction.

Ltac close_tools_leaf :=
  in_tools_trace;
  try solve
    [ in_list
    | eauto 6
    | left; reflexivity
    | match goal with
      | H : result_of ?p = Some _, H' : truthy ?p = false |- _ =>
          apply result_of_truthy in H; congruence
      | H : dict_get ?d _ = Some _, H' : truthy (PDict ?d) = false |- _ =>
          apply dict_get_truthy in H; congruence
      end
    | right; split; [reflexivity | intros (? & ? & ?); congruence]
    | match goal with H : ~ _ |- _ => exfalso; apply H; eauto 6 end ].

(** Follow a run that got as far as the tools/list response: what is left
    is [report_tools] on that response. *)
Ltac to_tools_response Hs Hr :=
  match goal with
  | |- context [run ?jl ?c] =>
      let r := fresh "outcome" in
      let w := fresh "w" in
      let E := fresh "Hrep" in
      destruct (report_tools (response jl 1 c) (at_step c 6 2 (tools_prefix jl c)))
        as [r w] eqn:E;
      rewrite (run_to_tools jl c r w Hs Hr E);
      pose proof (tools_prefix_events jl c);
      clear Hs Hr;
      generalize dependent (tools_prefix jl c); intros;
      generalize dependent (response jl 1 c); intros;
      unfold report_tools, at_step in *; run_probe
  end.

Section More.
Variable json_loads : string -> exn + pyval.

(** ** Sending *)

(** X1.  [send_message] echoes the message, writes it, then flushes.  A
    fault of the write leaves the flush out, and a fault of either call
    is the outcome of [send_message]: nothing is caught.  The message is
    echoed before the write is tried, and nothing is read from the child. *)
Theorem send_message_outcome p m w :
  stdout_lines (peer (snd (send_message p m w))) = stdout_lines (peer w) /\
  match stdin_outcomes (peer w) with
  | Some e :: rest =>
      fst (send_message p m w) = inl e /\
      trace (snd (send_message p m w))
      = trace w ++ [Print (Sending m); StdinWrite m] /\
      stdin_outcomes (peer (snd (send_message p m w))) = rest
  | None :: Some e :: rest =>
      fst (send_message p m w) = inl e /\
      trace (snd (send_message p m w)) = trace w ++ send_events m /\
      stdin_outcomes (peer (snd (send_message p m w))) = rest
  | l =>
      fst (send_message p m w) = inr tt /\
      trace (snd (send_message p m w)) = trace w ++ send_events m /\
      stdin_outcomes (peer (snd (send_message p m w))) = skipn 2 l
  end.
Proof.
  destruct w as [[po si so we se] t]. run_probe.
  destruct si as [| [e |] [| [e' |] rest]]; cbn;
    rewrite <- ?app_assoc; repeat split; reflexivity.
Qed.

(** ** Reading *)

(** X2.  When [readline] itself raises, the fault is caught inside
    [read_response], logged as a read error, and [None] is returned. *)
Theorem read_response_fault p w e :
  next_line w = inl e ->
  exists w',
    read_response json_loads p w = (inr PNone, w') /\
    trace w' = trace w ++ [StdoutReadline; Print (ReadError e)].
Proof.
  intro H. destruct w as [[po si so we se] t]. run_probe.
  destruct so as [| o rest]; cbn in *; [discriminate |]. subst o. cbn.
  eexists. split; [reflexivity |]. cbn. rewrite <- app_assoc. reflexivity.
Qed.

(** X4.  A call of [read_response] asks the child for exactly one line,
    logs at most one line of its own, and leaves the child's input
    alone: it writes nothing. *)
Theorem read_response_only_reads p w :
  stdin_outcomes (peer (snd (read_response json_loads p w)))
  = stdin_outcomes (peer w) /\
  stdout_lines (peer (snd (read_response json_loads p w)))
  = tl (stdout_lines (peer w)) /\
  exists t,
    trace (snd (read_response json_loads p w)) = trace w ++ StdoutReadline :: t /\
    count is_readline t = 0 /\ written t = [] /\ List.length t <= 1.
Proof.
  destruct w as [[po si so we se] t]. run_probe.
  explore; repeat split; eexists; (split; [rewrite <- ?app_assoc; reflexivity |]);
    repeat split; cbn; lia.
Qed.

(** ** What is made of the tools/list response *)

(** X5.  When all three messages went out and the initialize response was
    accepted, the probe reports [TOOLS/LIST successful!] if and only if
    the second response is an object whose [result] is truthy, and
    [TOOLS/LIST failed] if and only if that response is falsy (absent
    included) or an object with no truthy [result]; the failure line
    carries the response. *)
Theorem tools_report c :
  serves 6 c ->
  has_truthy_result (response json_loads 0 c) ->
  (reports ToolsOk (snd (run json_loads c))
   <-> has_truthy_result (response json_loads 1 c)) /\
  (reports (ToolsFailed (response json_loads 1 c)) (snd (run json_loads c))
   <-> truthy (response json_loads 1 c) = false
       \/ (is_dict (response json_loads 1 c) = true
           /\ ~ has_truthy_result (response json_loads 1 c))) /\
  (forall x, reports (ToolsFailed x) (snd (run json_loads c)) ->
             x = response json_loads 1 c).
Proof.
  intros Hs Hr. unfold has_truthy_result, reports.
  to_tools_response Hs Hr.
  explore; cbn [fst snd trace]; repeat split; intros; close_tools_leaf.
Qed.

(** X6.  A tools/list [result] that is truthy but not an object (a
    number, a non-empty string or array, [true]) is first reported as a
    success; the lookup of its [get] then raises, so that the run reports
    a run error after [TOOLS/LIST successful!] and no count of tools.
    The fault is caught: the run ends as its teardown ends. *)
Theorem tools_result_not_object c r :
  serves 6 c ->
  has_truthy_result (response json_loads 0 c) ->
  result_of (response json_loads 1 c) = Some r ->
  truthy r = true ->
  is_dict r = false ->
  fst (run json_loads c) = teardown_outcome c /\
  reports ToolsOk (snd (run json_loads c)) /\
  reports (RunError (AttributeError (type_name r) "get")) (snd (run json_loads c)) /\
  (forall n, ~ reports (Found n) (snd (run json_loads c))).
Proof.
  intros Hs Hr H2 H3 H4. unfold reports, result_of in *.
  to_tools_response Hs Hr.
  explore; cbn [fst snd trace]; repeat split; intros; try intro;
    try reflexivity; close_tools_leaf.
Qed.

(** X7.  When the [result] object has a [tools] field, the count reported
    is [len] of whatever that field holds: the number of items of a list,
    of characters of a string, of keys of an object.  A [tools] that has
    no [len] ([null], a number, a boolean) makes [len] raise after
    [TOOLS/LIST successful!]: a run error and no count.  The default
    of [get] applies to a missing key only. *)
Theorem tools_length c r t :
  serves 6 c ->
  has_truthy_result (response json_loads 0 c) ->
  result_of (response json_loads 1 c) = Some (PDict r) ->
  dict_get r "tools" = Some t ->
  reports ToolsOk (snd (run json_loads c)) /\
  match t with
  | PList l => reports (Found (List.length l)) (snd (run json_loads c))
  | PStr s => reports (Found (String.length s)) (snd (run json_loads c))
  | PDict d => reports (Found (dict_len d)) (snd (run json_loads c))
  | _ =>
      reports (RunError (TypeError (type_name t))) (snd (run json_loads c)) /\
      forall n, ~ reports (Found n) (snd (run json_loads c))
  end.
Proof.
  intros Hs Hr H2 H3. pose proof (dict_get_truthy _ _ _ H3) as Ht.
  unfold reports, result_of in *.
  to_tools_response Hs Hr.
  explore; cbn [fst snd trace]; repeat split; intros; try intro;
    close_tools_leaf.
Qed.

(** ** Whole runs *)

(** X8.  A run in which everything succeeds makes its calls in this
    order, and no other: launch and a wait of 2, the initialize request,
    one read, the success line, the notification, its line and a wait of
    1, the tools/list request, one read, the success line and the count,
    then the teardown.  It ends as its teardown ends: it raises what the
    drain of the child's stderr raises, and nothing when the drain
    returns. *)
Theorem successful_run c r ts :
  serves 6 c ->
  has_truthy_result (response json_loads 0 c) ->
  result_of (response json_loads 1 c) = Some (PDict r) ->
  dict_get r "tools" = Some (PList ts) ->
  run json_loads c =
    (teardown_outcome c,
     launch_events ++ send_events init_request
     ++ [StdoutReadline; Print (Received (response json_loads 0 c)); Print InitOk]
     ++ send_events init_notification ++ [Print NotifSent; Sleep 1]
     ++ send_events tools_request
     ++ [StdoutReadline; Print (Received (response json_loads 1 c));
         Print ToolsOk; Print (Found (List.length ts))]
     ++ teardown_events c).
Proof.
  intros Hs Hr H2 H3. pose proof (dict_get_truthy _ _ _ H3) as Ht.
  assert (Hne : response json_loads 1 c <> PNone).
  { intro E. rewrite E in H2. discriminate. }
  destruct (report_tools (response json_loads 1 c)
              (at_step c 6 2 (tools_prefix json_loads c))) as [o w] eqn:E.
  rewrite (run_to_tools json_loads c o w Hs Hr E).
  unfold tools_prefix in E. rewrite (read_events_accepted json_loads 1 c Hne) in E.
  unfold result_of in H2. clear Hs Hr Hne.
  generalize dependent (response json_loads 1 c). intros v H2 E.
  generalize dependent (response json_loads 0 c). intros v0 E.
  unfold report_tools, at_step in E. run_probe.
  explore; first [reflexivity | close_tools_leaf].
Qed.

(** X9.  A run reports at most one run error, and reports it last: what
    follows [Error during test] is the teardown and nothing else, and
    nothing before it is a run error or a step of the teardown. *)
Theorem run_error_last c :
  popen_outcome c = None ->
  count is_run_error (snd (run json_loads c)) <= 1 /\
  (forall e, reports (RunError e) (snd (run json_loads c)) ->
     exists t0,
       snd (run json_loads c) = t0 ++ Print (RunError e) :: teardown_events c /\
       count is_run_error t0 = 0 /\ count is_teardown t0 = 0).
Proof.
  intro Hp. rewrite (run_launched json_loads c Hp).
  destruct (emits_body_handshake json_loads Process (mkWorld c launch_events))
    as (t & Ht & HP & _).
  destruct (handshake json_loads Process (mkWorld c launch_events)) as [r w].
  cbn [fst snd trace] in *. rewrite Ht.
  assert (H0 : count is_run_error (launch_events ++ t) = 0).
  { rewrite count_app. rewrite (count_none _ _ t body_event_not_run_error HP).
    reflexivity. }
  assert (H1 : count is_teardown (launch_events ++ t) = 0).
  { rewrite count_app. rewrite (count_none _ _ t body_event_not_teardown HP).
    reflexivity. }
  assert (Hnot : forall e, ~ In (Print (RunError e)) (launch_events ++ t)).
  { intros e He. apply in_app_or in He as [He | He].
    - cbn in He. intuition discriminate.
    - rewrite forallb_forall in HP. apply HP in He. discriminate. }
  assert (Htd : count is_run_error (teardown_events c) = 0).
  { unfold teardown_events.
    destruct (wait_expires c), (str_truthy (stderr_content c)); reflexivity. }
  split.
  - rewrite (count_app _ (launch_events ++ t)), H0, count_app, Htd.
    destruct r; cbn; lia.
  - intros e He. unfold reports in He.
    apply in_app_or in He as [He | He]; [elim (Hnot e He) |].
    apply in_app_or in He as [He | He].
    + destruct r as [e' | u]; cbn in He; [| contradiction].
      destruct He as [He | []]. injection He as ->.
      exists (launch_events ++ t). repeat split; assumption.
    + apply in_teardown_events in He as [He _]. discriminate.
Qed.

(** X10.  The status lines of a run keep their order: wherever the
    notification line stands in the trace, the initialize success line
    stands before it; wherever a tools/list line (success or failure)
    stands, the notification line stands before it; wherever a count
    stands, the tools/list success line stands before it; and a step is
    never reported both as a success and as a failure. *)
Theorem log_order c :
  (forall t1 t2,
      snd (run json_loads c) = t1 ++ Print NotifSent :: t2 ->
      reports InitOk t1) /\
  (forall t1 t2,
      snd (run json_loads c) = t1 ++ Print ToolsOk :: t2 ->
      reports NotifSent t1) /\
  (forall x t1 t2,
      snd (run json_loads c) = t1 ++ Print (ToolsFailed x) :: t2 ->
      reports NotifSent t1) /\
  (forall n t1 t2,
      snd (run json_loads c) = t1 ++ Print (Found n) :: t2 ->
      reports ToolsOk t1) /\
  (forall x, reports InitOk (snd (run json_loads c)) ->
             ~ reports (InitFailed x) (snd (run json_loads c))) /\
  (forall x, reports ToolsOk (snd (run json_loads c)) ->
             ~ reports (ToolsFailed x) (snd (run json_loads c))).
Proof.
  pose proof (run_orderly json_loads c) as H. unfold orderly in H.
  rewrite !andb_true_iff in H.
  destruct H as [[[[[[_ _] _] _] H5] H6] _].
  pose proof (run_sequenced json_loads c) as S. unfold sequenced in S.
  rewrite !andb_true_iff in S.
  destruct S as [[[S1 S2] S3] S4].
  repeat split.
  - intros t1 t2 E.
    apply (follows_before _ _ InitOk _ _ _ _ S1 eq_refl) in E;
      [exact E | intros []; cbn; congruence | reflexivity].
  - intros t1 t2 E.
    apply (follows_before _ _ NotifSent _ _ _ _ S2 eq_refl) in E;
      [exact E | intros []; cbn; congruence | reflexivity].
  - intros x t1 t2 E.
    apply (follows_before _ _ NotifSent _ _ _ _ S3 eq_refl) in E;
      [exact E | intros []; cbn; congruence | reflexivity].
  - intros n t1 t2 E.
    apply (follows_before _ _ ToolsOk _ _ _ _ S4 eq_refl) in E;
      [exact E | intros []; cbn; congruence | reflexivity].
  - intros x Ha Hb.
    rewrite (prints_intro is_InitOk _ _ Ha), (prints_intro is_InitFailed _ _ Hb)
      in H5 by reflexivity.
    discriminate.
  - intros x Ha Hb.
    rewrite (prints_intro is_ToolsOk _ _ Ha), (prints_intro is_ToolsFailed _ _ Hb)
      in H6 by reflexivity.
    discriminate.
Qed.

(** X11.  Once the initialize response is turned down the handshake is
    over: the initialize request is the only message written, one line
    was asked of the child, the notification is not sent, and no run
    error is reported. *)
Theorem initialize_failure_stops c x :
  reports (InitFailed x) (snd (run json_loads c)) ->
  written (snd (run json_loads c)) = [init_request] /\
  count is_readline (snd (run json_loads c)) = 1 /\
  ~ reports InitOk (snd (run json_loads c)) /\
  ~ reports NotifSent (snd (run json_loads c)) /\
  (forall e, ~ reports (RunError e) (snd (run json_loads c))).
Proof.
  intro Hx. pose proof (run_orderly json_loads c) as H. unfold orderly in H.
  rewrite !andb_true_iff in H.
  destruct H as [[[[[[H1 _] _] _] H5] _] H7].
  apply (prints_intro is_InitFailed) in Hx; [| reflexivity].
  rewrite Hx in *. cbn in H7. rewrite andb_true_r in H5.
  rewrite !andb_true_iff in H7. destruct H7 as [[Hw Hr] He].
  apply Nat.eqb_eq in Hw, Hr.
  assert (Hok : ~ reports InitOk (snd (run json_loads c))).
  { intro Ha. rewrite (prints_intro is_InitOk _ _ Ha) in H5 by reflexivity.
    discriminate. }
  repeat split.
  - destruct (written_prefix json_loads c) as [n Hn]. rewrite Hn in *.
    destruct n as [| [| n]]; cbn in Hw; try discriminate; reflexivity.
  - exact Hr.
  - exact Hok.
  - intro Hn. apply Hok.
    apply (prints_only is_InitOk); [reflexivity | intros []; cbn; congruence |].
    apply (implb_true _ _ H1), (prints_intro _ _ _ Hn). reflexivity.
  - intros e Hre.
    rewrite (prints_intro is_RunError _ _ Hre) in He by reflexivity.
    discriminate.
Qed.

(** X12.  A fault while sending the notification or the tools/list
    request, after an accepted initialize response, ends the handshake:
    the fault is caught and reported as a run error, so that the run ends
    as its teardown ends; no second line is read, and tools/list is
    reported neither as a success nor as a failure.  The tools/list
    request is written, and the notification line printed, exactly when
    the notification went through. *)
Theorem later_send_fault c :
  serves 2 c ->
  has_truthy_result (response json_loads 0 c) ->
  stdin_accepts 6 c = false ->
  fst (run json_loads c) = teardown_outcome c /\
  (exists e, reports (RunError e) (snd (run json_loads c))) /\
  count is_readline (snd (run json_loads c)) = 1 /\
  written (snd (run json_loads c))
  = (if stdin_accepts 4 c
     then [init_request; init_notification; tools_request]
     else [init_request; init_notification]) /\
  (reports NotifSent (snd (run json_loads c)) <-> stdin_accepts 4 c = true) /\
  ~ reports ToolsOk (snd (run json_loads c)) /\
  (forall x, ~ reports (ToolsFailed x) (snd (run json_loads c))).
Proof.
  intros Hs (r0 & Hr0 & Ht0) Hf. destruct c as [po si so we se].
  unfold reports, count, result_of in *. name_run. run_list_tools.
  explore; cbn;
    rewrite ?finally_outcome_unit, ?written_teardown_events,
      ?no_readline_teardown;
    repeat split; intros; try intro; try discriminate; try reflexivity;
    try solve [eexists; in_list]; close_leaf.
Qed.

(** X13.  The probe never reads ahead of its requests: in every run the
    number of lines asked of the child is at most the number of requests
    written to it, and at most 2. *)
Theorem reads_follow_requests c :
  count is_readline (snd (run json_loads c))
  <= List.length (filter is_request (written (snd (run json_loads c)))) /\
  count is_readline (snd (run json_loads c)) <= 2.
Proof.
  destruct c as [po si so we se]. unfold count. name_run. run_list_tools.
  explore; cbn; rewrite ?written_teardown_events, ?no_readline_teardown;
    cbn; lia.
Qed.


End More.

(** * More of the script, on sample children *)

Example case_lines_decode :
  Sample.json_loads (strip Cases.line_error) = inr Cases.error_response /\
  Sample.json_loads (strip Cases.line_result_number)
  = inr (PDict [("jsonrpc", PStr "2.0"); ("id", PInt 2); ("result", PInt 5)]) /\
  Sample.json_loads (strip Cases.line_tools_null)
  = inr (PDict [("jsonrpc", PStr "2.0"); ("id", PInt 2);
                ("result", PDict [("tools", PNone)])]).
Proof. repeat (split; [vm_compute; reflexivity |]). vm_compute. reflexivity. Qed.

(** Output that cannot be decoded as text reads as [None]. *)
Lemma read_response_fault_witness :
  exists w',
    read_response Sample.json_loads Process (mkWorld Cases.child_garbled [])
    = (inr PNone, w') /\
    trace w' = [] ++ [StdoutReadline; Print (ReadError UnicodeDecodeError)].
Proof.
  assert (H : next_line (mkWorld Cases.child_garbled []) = inl UnicodeDecodeError)
    by (vm_compute; reflexivity).
  exact (read_response_fault Sample.json_loads Process
           (mkWorld Cases.child_garbled []) UnicodeDecodeError H).
Defined.

(** The first line of a server that answers is returned as decoded. *)
Lemma read_response_decoded_witness :
  exists w',
    read_response Sample.json_loads Process (mkWorld Sample.child_two_tools [])
    = (inr Sample.initialized, w') /\
    trace w' = [] ++ [StdoutReadline; Print (Received Sample.initialized)].
Proof.
  assert (H1 : next_line (mkWorld Sample.child_two_tools [])
               = inr Sample.line_initialized)
    by (vm_compute; reflexivity).
  assert (H2 : Sample.line_initialized <> EmptyString)
    by (vm_compute; discriminate).
  assert (H3 : Sample.json_loads (strip Sample.line_initialized)
               = inr Sample.initialized)
    by (vm_compute; reflexivity).
  exact (read_response_decoded Sample.json_loads Process
           (mkWorld Sample.child_two_tools []) Sample.line_initialized
           Sample.initialized H1 H2 H3).
Defined.

(** An error response to tools/list is reported as a failure. *)
Lemma tools_report_witness :
  reports (ToolsFailed (response Sample.json_loads 1 Cases.child_tools_error))
    (snd (run Sample.json_loads Cases.child_tools_error)).
Proof.
  assert (H1 : serves 6 Cases.child_tools_error)
    by (split; vm_compute; reflexivity).
  assert (H2 : has_truthy_result
                 (response Sample.json_loads 0 Cases.child_tools_error)).
  { exists (PDict [("protocolVersion", PStr "2024-11-05")]).
    split; vm_compute; reflexivity. }
  apply (proj1 (proj2 (tools_report Sample.json_loads Cases.child_tools_error
                         H1 H2))).
  right. split; [vm_compute; reflexivity |].
  intros (r & Hr & _). vm_compute in Hr. discriminate Hr.
Defined.

(** A [result] of 5 to tools/list: a success line, then a run error. *)
Lemma tools_result_not_object_witness :
  reports ToolsOk (snd (run Sample.json_loads Cases.child_result_number)) /\
  reports (RunError (AttributeError (type_name (PInt 5)) "get"))
    (snd (run Sample.json_loads Cases.child_result_number)).
Proof.
  assert (H1 : serves 6 Cases.child_result_number)
    by (split; vm_compute; reflexivity).
  assert (H2 : has_truthy_result
                 (response Sample.json_loads 0 Cases.child_result_number)).
  { exists (PDict [("protocolVersion", PStr "2024-11-05")]).
    split; vm_compute; reflexivity. }
  assert (H3 : result_of (response Sample.json_loads 1 Cases.child_result_number)
               = Some (PInt 5))
    by (vm_compute; reflexivity).
  assert (H4 : truthy (PInt 5) = true) by (vm_compute; reflexivity).
  assert (H5 : is_dict (PInt 5) = false) by (vm_compute; reflexivity).
  destruct (tools_result_not_object Sample.json_loads
              Cases.child_result_number (PInt 5) H1 H2 H3 H4 H5)
    as (_ & Ha & Hb & _).
  split; assumption.
Defined.

(** A [tools] of [null]: a success line, then a run error from [len]. *)
Lemma tools_length_witness :
  reports ToolsOk (snd (run Sample.json_loads Cases.child_tools_null)) /\
  reports (RunError (TypeError (type_name PNone)))
    (snd (run Sample.json_loads Cases.child_tools_null)).
Proof.
  assert (H1 : serves 6 Cases.child_tools_null)
    by (split; vm_compute; reflexivity).
  assert (H2 : has_truthy_result
                 (response Sample.json_loads 0 Cases.child_tools_null)).
  { exists (PDict [("protocolVersion", PStr "2024-11-05")]).
    split; vm_compute; reflexivity. }
  assert (H3 : result_of (response Sample.json_loads 1 Cases.child_tools_null)
               = Some (PDict [("tools", PNone)]))
    by (vm_compute; reflexivity).
  assert (H4 : dict_get [("tools", PNone)] "tools" = Some PNone)
    by (vm_compute; reflexivity).
  destruct (tools_length Sample.json_loads Cases.child_tools_null
              [("tools", PNone)] PNone H1 H2 H3 H4)
    as (Ha & Hb & _).
  split; assumption.
Defined.

(** The whole run against a server that lists two tools. *)
Lemma successful_run_witness :
  run Sample.json_loads Sample.child_two_tools =
    (teardown_outcome Sample.child_two_tools,
     launch_events ++ send_events init_request
     ++ [StdoutReadline;
         Print (Received (response Sample.json_loads 0 Sample.child_two_tools));
         Print InitOk]
     ++ send_events init_notification ++ [Print NotifSent; Sleep 1]
     ++ send_events tools_request
     ++ [StdoutReadline;
         Print (Received (response Sample.json_loads 1 Sample.child_two_tools));
         Print ToolsOk;
         Print (Found (List.length [PDict [("name", PStr "a")];
                                    PDict [("name", PStr "b")]]))]
     ++ teardown_events Sample.child_two_tools).
Proof.
  assert (H1 : serves 6 Sample.child_two_tools)
    by (split; vm_compute; reflexivity).
  assert (H2 : has_truthy_result
                 (response Sample.json_loads 0 Sample.child_two_tools)).
  { exists (PDict [("protocolVersion", PStr "2024-11-05")]).
    split; vm_compute; reflexivity. }
  assert (H3 : result_of (response Sample.json_loads 1 Sample.child_two_tools)
               = Some (PDict [("tools", PList [PDict [("name", PStr "a")];
                                               PDict [("name", PStr "b")]])]))
    by (vm_compute; reflexivity).
  assert (H4 : dict_get [("tools", PList [PDict [("name", PStr "a")];
                                          PDict [("name", PStr "b")]])] "tools"
               = Some (PList [PDict [("name", PStr "a")];
                              PDict [("name", PStr "b")]]))
    by (vm_compute; reflexivity).
  exact (successful_run Sample.json_loads Sample.child_two_tools _ _ H1 H2 H3 H4).
Defined.

(** The broken pipe is the last report of the run against a child that
    has exited. *)
Lemma run_error_last_witness :
  exists t0,
    snd (run Sample.json_loads Sample.child_gone)
    = t0 ++ Print (RunError BrokenPipeError) :: teardown_events Sample.child_gone /\
    count is_run_error t0 = 0 /\ count is_teardown t0 = 0.
Proof.
  assert (H1 : popen_outcome Sample.child_gone = None)
    by (vm_compute; reflexivity).
  assert (H2 : reports (RunError BrokenPipeError)
                 (snd (run Sample.json_loads Sample.child_gone)))
    by (vm_compute; in_list).
  exact (proj2 (run_error_last Sample.json_loads Sample.child_gone H1)
           BrokenPipeError H2).
Defined.

(** In the run against a server that lists two tools, the notification
    line stands before the tools/list success line. *)
Lemma log_order_witness :
  reports NotifSent
    (launch_events ++ send_events init_request
     ++ [StdoutReadline;
         Print (Received (response Sample.json_loads 0 Sample.child_two_tools));
         Print InitOk]
     ++ send_events init_notification ++ [Print NotifSent; Sleep 1]
     ++ send_events tools_request
     ++ [StdoutReadline;
         Print (Received (response Sample.json_loads 1 Sample.child_two_tools))]).
Proof.
  assert (H : snd (run Sample.json_loads Sample.child_two_tools)
              = (launch_events ++ send_events init_request
                 ++ [StdoutReadline;
                     Print (Received
                              (response Sample.json_loads 0 Sample.child_two_tools));
                     Print InitOk]
                 ++ send_events init_notification ++ [Print NotifSent; Sleep 1]
                 ++ send_events tools_request
                 ++ [StdoutReadline;
                     Print (Received
                              (response Sample.json_loads 1
                                 Sample.child_two_tools))])
                ++ Print ToolsOk
                   :: Print (Found 2) :: teardown_events Sample.child_two_tools)
    by (vm_compute; reflexivity).
  exact (proj1 (proj2 (log_order Sample.json_loads Sample.child_two_tools))
           _ _ H).
Defined.

(** After an empty [result] the probe sends nothing more. *)
Lemma initialize_failure_stops_witness :
  written (snd (run Sample.json_loads Sample.child_empty_result))
  = [init_request] /\
  count is_readline (snd (run Sample.json_loads Sample.child_empty_result)) = 1.
Proof.
  assert (H : reports (InitFailed Sample.empty_result)
                (snd (run Sample.json_loads Sample.child_empty_result)))
    by (vm_compute; in_list).
  destruct (initialize_failure_stops Sample.json_loads Sample.child_empty_result
              Sample.empty_result H) as (Ha & Hb & _).
  split; assumption.
Defined.

(** A server that closes its input after the initialize response. *)
Lemma later_send_fault_witness :
  (exists e, reports (RunError e) (snd (run Sample.json_loads Cases.child_hangup))) /\
  count is_readline (snd (run Sample.json_loads Cases.child_hangup)) = 1 /\
  written (snd (run Sample.json_loads Cases.child_hangup))
  = (if stdin_accepts 4 Cases.child_hangup
     then [init_request; init_notification; tools_request]
     else [init_request; init_notification]).
Proof.
  assert (H1 : serves 2 Cases.child_hangup)
    by (split; vm_compute; reflexivity).
  assert (H2 : has_truthy_result
                 (response Sample.json_loads 0 Cases.child_hangup)).
  { exists (PDict [("protocolVersion", PStr "2024-11-05")]).
    split; vm_compute; reflexivity. }
  assert (H3 : stdin_accepts 6 Cases.child_hangup = false)
    by (vm_compute; reflexivity).
  destruct (later_send_fault Sample.json_loads Cases.child_hangup H1 H2 H3)
    as (_ & Ha & Hb & Hc & _).
  repeat split; assumption.
Defined.

